(** * APC PDU monitor and control over SNMP: model and properties

    A shallow embedding of [src/__init__.py]: the classes [PDU] and [Outlet],
    which drive a power distribution unit through [netsnmp.snmpget] and
    [netsnmp.snmpset].  The SNMP agent is outside the program; it is a
    parameter of the model, and every exchange the program performs is
    recorded, in order, so that statements about what goes on the wire can
    be made.  Calls to the [logging] module touch neither the objects' data
    nor the wire and are left out. *)

From Stdlib Require Import ZArith String Ascii List Lia DecimalString.
From Stdlib Require DecimalPos DecimalZ.
From stdpp Require Import gmap strings list fin_maps.

Local Open Scope Z_scope.
Local Open Scope string_scope.
Local Open Scope list_scope.

(** ** Python values and builtins *)

(** The values that travel between the program and [netsnmp]: [None], a
    [str], an [int]. *)
Inductive value : Type :=
  | PyNone
  | PyStr (s : string)
  | PyInt (z : Z).

(** The exceptions the two classes can raise. *)
Inductive Exn : Type :=
  | RuntimeError (msg : string)
  | NameError (name : string)
  | KeyError (key : Z)
  | IndexError
  | TypeError
  | AttributeError (attr : string)
  | ValueError (lit : string)
  | SocketError (host : string).

Inductive Result (A : Type) : Type :=
  | Ok (a : A)
  | Raise (e : Exn).
Arguments Ok {A} a.
Arguments Raise {A} e.

(** [bool(x)]. *)
Definition bool_ (v : value) : bool :=
  match v with
  | PyNone => false
  | PyStr s => negb (String.eqb s "")
  | PyInt z => negb (z =? 0)%Z
  end.

(** [str.isspace] on one ASCII character: space, tab, LF, VT, FF, CR. *)
Definition isspace (c : ascii) : bool :=
  let n := nat_of_ascii c in
  ((n =? 32) || ((9 <=? n) && (n <=? 13)))%nat.

Fixpoint lstrip (s : string) : string :=
  match s with
  | String c s' => if isspace c then lstrip s' else s
  | EmptyString => EmptyString
  end.

Fixpoint rstrip (s : string) : string :=
  match s with
  | String c s' =>
      match rstrip s' with
      | EmptyString => if isspace c then EmptyString else String c EmptyString
      | t => String c t
      end
  | EmptyString => EmptyString
  end.

Definition digits (s : string) : option Z :=
  Z.of_uint <$> NilZero.uint_of_string s.

(** [int(s)] for a [str]: surrounding white space is dropped, then an
    optional sign and a non-empty run of decimal digits (the literals that
    Python 2, which the netsnmp bindings target, accepts in base 10). *)
Definition int_of_str (s : string) : option Z :=
  match rstrip (lstrip s) with
  | String "-" r => Z.opp <$> digits r
  | String "+" r => digits r
  | t => digits t
  end.

(** [int(x)]. *)
Definition int_ (v : value) : Result Z :=
  match v with
  | PyNone => Raise TypeError
  | PyStr s => match int_of_str s with
               | Some z => Ok z
               | None => Raise (ValueError s)
               end
  | PyInt z => Ok z
  end.

(** [str(n)] for an [int]. *)
Definition str_ (n : Z) : string := NilZero.string_of_int (Z.to_int n).

(** [range(n)]: empty when [n <= 0]. *)
Definition range (n : Z) : list nat := seq 0 (Z.to_nat n).

(** Truth value of an optional [str] argument ([None] and [''] are false). *)
Definition truthy (o : option string) : bool :=
  match o with
  | Some s => negb (String.eqb s "")
  | None => false
  end.

(** ** The netsnmp interface *)

Inductive Kind : Type := GET | SET.

(** [netsnmp.Varbind(tag, iid, val, type)]; [val] and [type] default to
    [None]. *)
Record Varbind : Type := mkVarbind {
  tag : string;
  iid : string;
  val : value;
  type : option string
}.

(** One call of [netsnmp.snmpget] or [netsnmp.snmpset] as it is issued. *)
Record Request : Type := mkRequest {
  kind : Kind;
  var : Varbind;
  Version : Z;
  DestHost : string;
  Community : string
}.

(** What lies outside the program: the SNMP agent and the resolver.
    An agent answers a request knowing the exchanges that went before.
    [snmpget] hands back a tuple with one entry per Varbind, [None] where
    the value could not be fetched; [snmpset] hands back an integer, zero
    (or [None]) when the write failed.  [default_IP] is the module global
    computed at import time by [socket.gethostbyname('pdu')]. *)
Record Env : Type := mkEnv {
  get_reply : list Request -> Request -> value;
  set_reply : list Request -> Request -> value;
  gethostbyname : string -> option string;
  gethostbyaddr : string -> option string;
  default_IP : string
}.

(** ** Methods as state transformers

    A method runs on its object [self] and on the log of exchanges made so
    far; it either returns or raises, and in both cases leaves an object and
    a log behind. *)
Record World (O : Type) : Type := mkWorld {
  self : O;
  wire : list Request
}.
Arguments mkWorld {O} self wire.
Arguments self {O} w.
Arguments wire {O} w.

Definition M (O A : Type) : Type := World O -> Result A * World O.

Definition ret {O A} (a : A) : M O A := fun w => (Ok a, w).

Definition raise {O A} (e : Exn) : M O A := fun w => (Raise e, w).

Definition bind {O A B} (m : M O A) (k : A -> M O B) : M O B :=
  fun w => match m w with
           | (Ok a, w') => k a w'
           | (Raise e, w') => (Raise e, w')
           end.

Notation "x <- m ;; k" := (bind m (fun x => k))
  (at level 100, m at next level, right associativity).
Notation "m ;;; k" := (bind m (fun _ => k))
  (at level 100, right associativity).

Definition lift {O A} (r : Result A) : M O A := fun w => (r, w).

Definition getattr {O A} (f : O -> A) : M O A := fun w => (Ok (f (self w)), w).

Definition setattr {O} (f : O -> O) : M O unit :=
  fun w => (Ok tt, mkWorld (f (self w)) (wire w)).

(** A [for] loop over a list, threading the locals the body updates. *)
Fixpoint for_ {O A} (ns : list nat) (body : nat -> A -> M O A) (acc : A) : M O A :=
  match ns with
  | [] => ret acc
  | n :: ns' => acc' <- body n acc ;; for_ ns' body acc'
  end.

(** The names visible in a function body that are bound to a Varbind.
    Loading a name that is bound nowhere raises [NameError]. *)
Fixpoint load {O} (scope : list (string * Varbind)) (x : string) : M O Varbind :=
  match scope with
  | [] => raise (NameError x)
  | (y, v) :: scope' => if String.eqb x y then ret v else load scope' x
  end.

Section Netsnmp.
Variable env : Env.
Context {O : Type}.

(** [netsnmp.snmpget(var, Version=, DestHost=, Community=)[0]] *)
Definition snmpget (var : Varbind) (Version : Z) (DestHost Community : string)
  : M O value :=
  fun w =>
    let rq := mkRequest GET var Version DestHost Community in
    (Ok (get_reply env (wire w) rq), mkWorld (self w) (wire w ++ [rq])).

(** [netsnmp.snmpset(var, Version=, DestHost=, Community=)] *)
Definition snmpset (var : Varbind) (Version : Z) (DestHost Community : string)
  : M O value :=
  fun w =>
    let rq := mkRequest SET var Version DestHost Community in
    (Ok (set_reply env (wire w) rq), mkWorld (self w) (wire w ++ [rq])).
End Netsnmp.

(** [d[k]] on a dict, [KeyError] when the key is absent. *)
Definition getitem {O A} (d : gmap Z A) (k : Z) : M O A :=
  match d !! k with
  | Some a => ret a
  | None => raise (KeyError k)
  end.

(** [l[n]] on a list, [IndexError] when out of range. *)
Definition index_ {O A} (l : list A) (n : nat) : M O A :=
  match l !! n with
  | Some a => ret a
  | None => raise IndexError
  end.

(** [s.split()]: the maximal runs of non-blank characters. *)
Fixpoint split_from (s : string) (cur : option string) : list string :=
  match s with
  | EmptyString => match cur with Some w => [w] | None => [] end
  | String c s' =>
      if isspace c then
        match cur with
        | Some w => w :: split_from s' None
        | None => split_from s' None
        end
      else split_from s' (Some (default "" cur +:+ String c ""))
  end.

(** [x.split()] on what [snmpget] handed back. *)
Definition split_ {O} (v : value) : M O (list string) :=
  match v with
  | PyStr s => ret (split_from s None)
  | _ => raise (AttributeError "split")
  end.

(** [self.attr] for an attribute that may not have been assigned yet. *)
Definition readattr {O} (attr : string) (f : O -> option value) : M O value :=
  fun w => match f (self w) with
           | Some v => (Ok v, w)
           | None => (Raise (AttributeError attr), w)
           end.

(** ['%s' % x]: the text of [str(x)]. *)
Definition format_s (v : value) : string :=
  match v with
  | PyNone => "None"
  | PyStr s => s
  | PyInt z => str_ z
  end.

(** ** class PDU *)
Module PDU.

(** A PDU instance.  [hostname] and [hostIP] are assigned first thing in
    [__init__]; the identity attributes are absent ([None] here) until
    [_get_ident] assigns them. *)
Record obj : Type := mkPDU {
  hostname : string;
  hostIP : string;
  model : option value;
  serial : option value;
  hw_rev : option value;
  fw_rev : option value;
  date : option value;
  name : option value
}.

Definition set_model (v : value) (o : obj) : obj :=
  mkPDU (hostname o) (hostIP o) (Some v) (serial o) (hw_rev o) (fw_rev o) (date o) (name o).
Definition set_serial (v : value) (o : obj) : obj :=
  mkPDU (hostname o) (hostIP o) (model o) (Some v) (hw_rev o) (fw_rev o) (date o) (name o).
Definition set_hw_rev (v : value) (o : obj) : obj :=
  mkPDU (hostname o) (hostIP o) (model o) (serial o) (Some v) (fw_rev o) (date o) (name o).
Definition set_fw_rev (v : value) (o : obj) : obj :=
  mkPDU (hostname o) (hostIP o) (model o) (serial o) (hw_rev o) (Some v) (date o) (name o).
Definition set_date (v : value) (o : obj) : obj :=
  mkPDU (hostname o) (hostIP o) (model o) (serial o) (hw_rev o) (fw_rev o) (Some v) (name o).
Definition set_name_attr (v : value) (o : obj) : obj :=
  mkPDU (hostname o) (hostIP o) (model o) (serial o) (hw_rev o) (fw_rev o) (date o) (Some v).

Section Methods.
Variable env : Env.

(** The six attributes are read left to right to build the tuple. *)
Definition __repr__ : M obj string :=
  a_name <- readattr "name" name ;;
  a_model <- readattr "model" model ;;
  a_serial <- readattr "serial" serial ;;
  a_hw_rev <- readattr "hw_rev" hw_rev ;;
  a_fw_rev <- readattr "fw_rev" fw_rev ;;
  a_date <- readattr "date" date ;;
  ret (format_s a_name +:+ " " +:+ format_s a_model +:+ ", ser. "
       +:+ format_s a_serial +:+ ", h/w rev. " +:+ format_s a_hw_rev
       +:+ ", f/w " +:+ format_s a_fw_rev +:+ ", made " +:+ format_s a_date).

Definition _get_var (var : Varbind) : M obj value :=
  ip <- getattr hostIP ;;
  snmpget env var 2 ip "public".

Definition _get_ident : M obj unit :=
  let var := mkVarbind "sPDUIdentModelNumber" "0" PyNone None in
  v <- _get_var var ;;
  setattr (set_model v) ;;;
  let var := mkVarbind "sPDUIdentSerialNumber" "0" PyNone None in
  v <- _get_var var ;;
  setattr (set_serial v) ;;;
  let var := mkVarbind "sPDUIdentHardwareRev" "0" PyNone None in
  v <- _get_var var ;;
  setattr (set_hw_rev v) ;;;
  let var := mkVarbind "sPDUIdentFirmwareRev" "0" PyNone None in
  v <- _get_var var ;;
  setattr (set_fw_rev v) ;;;
  let var := mkVarbind "sPDUIdentDateOfManufacture" "0" PyNone None in
  v <- _get_var var ;;
  setattr (set_date v) ;;;
  let var := mkVarbind "sPDUMasterConfigPDUName" "0" PyNone None in
  v <- _get_var var ;;
  setattr (set_name_attr v).

(** The Varbind built on the first line is bound to no name; [namevar] is
    neither a local of [set_name] nor a module global nor a builtin, so no
    Varbind is in scope under that name. *)
Definition set_name (name : string) : M obj value :=
  let _ := mkVarbind "sPDUMasterConfigPDUName" "0" (PyStr name) (Some "STRING") in
  namevar <- load [] "namevar" ;;
  ip <- getattr hostIP ;;
  snmpset env namevar 2 ip "private".

Definition get_outlet_states : M obj (list string) :=
  let var := mkVarbind "sPDUMasterState" "0" PyNone None in
  response <- _get_var var ;;
  split_ response.

Definition get_pending : M obj (list string) :=
  let var := mkVarbind "sPDUMasterPending" "0" PyNone None in
  response <- _get_var var ;;
  split_ response.

Definition get_outlet_names : M obj (gmap Z value) :=
  let var := mkVarbind "sPDUOutletConfigTableSize" "0" PyNone None in
  num_switches <- _get_var var ;;
  let OIDbase := "sPDUOutletCtlName" in
  count <- lift (int_ num_switches) ;;
  for_ (range count)
    (fun n names =>
       let index := Z.of_nat n + 1 in
       let namevar := mkVarbind OIDbase (str_ index) PyNone None in
       ip <- getattr hostIP ;;
       v <- snmpget env namevar 2 ip "public" ;;
       ret (<[index := v]> names))
    ∅.

Definition set_outlet_names (namelist : list string) : M obj (gmap Z bool) :=
  let var := mkVarbind "sPDUOutletConfigTableSize" "0" PyNone None in
  r <- _get_var var ;;
  num_switches <- lift (int_ r) ;;
  if negb (Z.of_nat (length namelist) =? num_switches)%Z then
    raise (RuntimeError "Incorrect number of names.")
  else
    let OIDbase := "sPDUOutletName" in
    for_ (range num_switches)
      (fun n result =>
         let index := Z.of_nat n + 1 in
         nm <- index_ namelist n ;;
         let namevar := mkVarbind OIDbase (str_ index) (PyStr nm) None in
         ip <- getattr hostIP ;;
         v <- snmpset env namevar 2 ip "private" ;;
         ret (<[index := bool_ v]> result))
      ∅.

(** [PDU(hostname, hostIP, name)]: the instance is handed to the caller
    only when [__init__] returns. *)
Definition __init__ (hostname hostIP name : option string) (log : list Request)
  : Result obj * list Request :=
  let addresses :=
    if truthy hostname then
      let h := default "" hostname in
      match gethostbyname env h with
      | Some ip => Ok (h, ip)
      | None => Raise (SocketError h)
      end
    else if truthy hostIP then
      let ip := default "" hostIP in
      match gethostbyaddr env ip with
      | Some h => Ok (h, ip)
      | None => Raise (SocketError ip)
      end
    else
      match gethostbyaddr env (default_IP env) with
      | Some h => Ok (h, default_IP env)
      | None => Raise (SocketError (default_IP env))
      end in
  match addresses with
  | Raise e => (Raise e, log)
  | Ok (h, ip) =>
      let body :=
        (if truthy name then set_name (default "" name) ;;; ret tt else ret tt) ;;;
        _get_ident in
      match body (mkWorld (mkPDU h ip None None None None None None) log) with
      | (Ok _, w) => (Ok (self w), wire w)
      | (Raise e, w) => (Raise e, wire w)
      end
  end.

End Methods.
End PDU.

(** ** class Outlet *)
Module Outlet.

(** The class attribute [Outlet.state]: text for each outlet state code. *)
Definition state : gmap Z string :=
  <[1 := "on"]> (<[2 := "off"]> (<[3 := "rebooting"]> (<[4 := "error"]> ∅))).

(** An Outlet instance.  [number] holds [str(number)].  The instance
    attribute [self.state] (here [state_attr]) shadows the class attribute
    on the instance only; [name], [state_attr] and [status] are absent
    until [get_name] and [get_state] assign them. *)
Record obj : Type := mkOutlet {
  pdu : PDU.obj;
  number : string;
  name : option value;
  state_attr : option Z;
  status : option string
}.

Definition set_name_attr (v : value) (o : obj) : obj :=
  mkOutlet (pdu o) (number o) (Some v) (state_attr o) (status o).
Definition set_state_attr (z : Z) (o : obj) : obj :=
  mkOutlet (pdu o) (number o) (name o) (Some z) (status o).
Definition set_status (s : string) (o : obj) : obj :=
  mkOutlet (pdu o) (number o) (name o) (state_attr o) (Some s).

Section Methods.
Variable env : Env.

Definition get_name : M obj value :=
  let OIDbase := "sPDUOutletCtlName" in
  num <- getattr number ;;
  let namevar := mkVarbind OIDbase num PyNone None in
  p <- getattr pdu ;;
  v <- snmpget env namevar 2 (PDU.hostIP p) "public" ;;
  setattr (set_name_attr v) ;;;
  ret v.

Definition set_name (name : string) : M obj bool :=
  let OIDbase := "sPDUOutletName" in
  num <- getattr number ;;
  let namevar := mkVarbind OIDbase num (PyStr name) (Some "STRING") in
  p <- getattr pdu ;;
  result <- snmpset env namevar 2 (PDU.hostIP p) "private" ;;
  get_name ;;;
  ret (bool_ result).

Definition get_state : M obj (Z * string) :=
  let OIDbase := "sPDUOutletCtl" in
  num <- getattr number ;;
  let statvar := mkVarbind OIDbase num PyNone None in
  p <- getattr pdu ;;
  r <- snmpget env statvar 2 (PDU.hostIP p) "public" ;;
  code <- lift (int_ r) ;;
  setattr (set_state_attr code) ;;;
  text <- getitem state code ;;
  setattr (set_status text) ;;;
  ret (code, text).

Definition set_state (state : bool) : M obj bool :=
  let OIDbase := "sPDUOutletCtl" in
  let value := if state then 1 else 2 in
  num <- getattr number ;;
  let statvar := mkVarbind OIDbase num (PyInt value) None in
  p <- getattr pdu ;;
  r <- snmpset env statvar 2 (PDU.hostIP p) "private" ;;
  let result := bool_ r in
  get_state ;;;
  ret result.

(** [Outlet(pdu, number)].  [logging.getLogger(__name__ + self.name)]
    concatenates two [str]; it raises [TypeError] on anything else. *)
Definition __init__ (pdu : PDU.obj) (number : Z) (log : list Request)
  : Result obj * list Request :=
  let body :=
    v <- get_name ;;
    match v with
    | PyStr _ => ret tt
    | _ => raise TypeError
    end ;;;
    get_state in
  match body (mkWorld (mkOutlet pdu (str_ number) None None None) log) with
  | (Ok _, w) => (Ok (self w), wire w)
  | (Raise e, w) => (Raise e, wire w)
  end.

End Methods.
End Outlet.

(** ** Wire-level vocabulary for the statements *)

(** The exchanges a method added to the log. *)
Definition is_set (rq : Request) : bool :=
  match kind rq with SET => true | GET => false end.

Definition is_table_size_get (rq : Request) : bool :=
  match kind rq with
  | GET => String.eqb (tag (var rq)) "sPDUOutletConfigTableSize"
  | SET => false
  end.

Definition count_if (p : Request -> bool) (l : list Request) : nat :=
  length (filter (fun rq => p rq = true) l).

(** The community strings as the program sends them. *)
Definition community_of_kind (k : Kind) : string :=
  match k with GET => "public" | SET => "private" end.

Definition fixed_community (rq : Request) : Prop :=
  Community rq = community_of_kind (kind rq).

(** The requests the program builds. *)
Definition table_size_request (ip : string) : Request :=
  mkRequest GET (mkVarbind "sPDUOutletConfigTableSize" "0" PyNone None) 2 ip "public".

Definition ident_request (ip oid : string) : Request :=
  mkRequest GET (mkVarbind oid "0" PyNone None) 2 ip "public".

Definition outlet_name_get (ip : string) (n : nat) : Request :=
  mkRequest GET (mkVarbind "sPDUOutletCtlName" (str_ (Z.of_nat n + 1)) PyNone None)
            2 ip "public".

Definition outlet_name_set (ip : string) (namelist : list string) (n : nat) : Request :=
  mkRequest SET (mkVarbind "sPDUOutletName" (str_ (Z.of_nat n + 1))
                           (PyStr (default "" (namelist !! n))) None)
            2 ip "private".

Definition outlet_state_get (ip num : string) : Request :=
  mkRequest GET (mkVarbind "sPDUOutletCtl" num PyNone None) 2 ip "public".

Definition outlet_state_set (ip num : string) (code : Z) : Request :=
  mkRequest SET (mkVarbind "sPDUOutletCtl" num (PyInt code) None) 2 ip "private".

(** ** A simulated rack for concrete runs

    Three outlets.  [broken] marks the requests that fail in transit;
    [stuck], when given, is what the agent reports for every outlet
    control read. *)
Fixpoint last_set (broken : Request -> bool) (log : list Request)
  (oid num : string) (dflt : value) : value :=
  match log with
  | [] => dflt
  | rq :: log' =>
      let dflt' :=
        if is_set rq && negb (broken rq)
           && String.eqb (tag (var rq)) oid && String.eqb (iid (var rq)) num
        then val (var rq) else dflt in
      last_set broken log' oid num dflt'
  end.

Definition show (v : value) : value :=
  match v with
  | PyInt z => PyStr (str_ z)
  | _ => v
  end.

Definition rack_get (broken : Request -> bool) (stuck : option value)
  (log : list Request) (rq : Request) : value :=
  let oid := tag (var rq) in
  let num := iid (var rq) in
  if broken rq then PyNone
  else if String.eqb oid "sPDUOutletConfigTableSize" then PyStr "3"
  else if String.eqb oid "sPDUOutletCtlName" then
    last_set broken log "sPDUOutletName" num (PyStr ("Outlet " +:+ num))
  else if String.eqb oid "sPDUOutletCtl" then
    match stuck with
    | Some v => v
    | None => show (last_set broken log "sPDUOutletCtl" num (PyStr "2"))
    end
  else if String.eqb oid "sPDUIdentModelNumber" then PyStr "AP7900"
  else if String.eqb oid "sPDUIdentSerialNumber" then PyStr "ZA1234"
  else if String.eqb oid "sPDUIdentHardwareRev" then PyStr "A"
  else if String.eqb oid "sPDUIdentFirmwareRev" then PyStr "v3.9.2"
  else if String.eqb oid "sPDUIdentDateOfManufacture" then PyStr "03/15/2006"
  else if String.eqb oid "sPDUMasterConfigPDUName" then PyStr "dto-pdu"
  else if String.eqb oid "sPDUMasterState" then PyStr "Off Off Off"
  else if String.eqb oid "sPDUMasterPending" then PyStr "No No No"
  else PyNone.

Definition rack_set (broken : Request -> bool) (log : list Request) (rq : Request)
  : value :=
  if broken rq then PyInt 0 else PyInt 1.

Definition rack (broken : Request -> bool) (stuck : option value) : Env :=
  mkEnv (rack_get broken stuck) (rack_set broken)
        (fun h => if String.eqb h "pdu" then Some "192.168.1.50" else None)
        (fun ip => if String.eqb ip "192.168.1.50" then Some "pdu" else None)
        "192.168.1.50".

Definition sound : Request -> bool := fun _ => false.

(** Requests on instance [num] of object [oid] fail. *)
Definition fails_on (oid num : string) : Request -> bool :=
  fun rq => String.eqb (tag (var rq)) oid && String.eqb (iid (var rq)) num.

(** The same, for SETs only. *)
Definition set_fails_on (oid num : string) : Request -> bool :=
  fun rq => is_set rq && fails_on oid num rq.

Definition the_pdu : PDU.obj :=
  PDU.mkPDU "pdu" "192.168.1.50" (Some (PyStr "AP7900")) (Some (PyStr "ZA1234"))
            (Some (PyStr "A")) (Some (PyStr "v3.9.2")) (Some (PyStr "03/15/2006"))
            (Some (PyStr "dto-pdu")).

Definition outlet2 : Outlet.obj :=
  Outlet.mkOutlet the_pdu "2" (Some (PyStr "Outlet 2")) (Some 2) (Some "off").

(** A rack like [rack sound None] that reports [size] outlets and sits on
    a network where every name and every address resolves. *)
Definition plain (size : string) : Env :=
  mkEnv (fun log rq =>
           if String.eqb (tag (var rq)) "sPDUOutletConfigTableSize"
           then PyStr size else rack_get sound None log rq)
        (rack_set sound)
        (fun _ => Some "192.168.1.50")
        (fun _ => Some "pdu")
        "192.168.1.50".

(** ** Module data *)

Definition DTO_names : list string :=
  ["Rack Fan";    "TCT";    "gpu2 a";   "gpu2 b";       "roach1";
   "PWS USB hub"; "SamGen"; "roach2";   "Ether-switch"; "gpu1 a";
   "gpu1 b";      "KVM";    "host dto"; "IF switch";    "spare 15";
   "spare 16";    "tmp: noise gen";
                            "tmp: amp"; "tmp: preamp";  "PWS Enet hub";
   "spare 21";    "spare 22"; "spare 23"; "spare 24"].

(** ** Vocabulary of the proofs *)

(** Does the text contain a white-space character? *)
Fixpoint has_blank (s : string) : bool :=
  match s with
  | EmptyString => false
  | String c s' => isspace c || has_blank s'
  end.

(** The state code and the status text of an outlet agree with the class
    table. *)
Definition decoded (o : Outlet.obj) : Prop :=
  exists code text,
    Outlet.state_attr o = Some code /\ Outlet.status o = Some text
    /\ Outlet.state !! code = Some text.

(** Started on an object whose projection [proj] is [b], the method [m]
    leaves that projection alone and only adds requests satisfying [P]. *)
Definition keeps {O A B} (proj : O -> B) (b : B) (P : Request -> Prop)
  (m : M O A) : Prop :=
  forall w, proj (self w) = b ->
    proj (self (snd (m w))) = b
    /\ exists new : list Request,
         wire (snd (m w)) = wire w ++ new /\ Forall P new.

(** A request about instance [num], sent with protocol version 2 to [ip]. *)
Definition addressed (ip : string) (rq : Request) : Prop :=
  DestHost rq = ip /\ Version rq = 2.

Definition is_get (rq : Request) : Prop := kind rq = GET.

(** The dict a loop over [range] builds when iteration [n] stores [f n]
    under key [n+1]. *)
Fixpoint tabulate {A} (f : nat -> A) (ns : list nat) (acc : gmap Z A) : gmap Z A :=
  match ns with
  | [] => acc
  | n :: ns' => tabulate f ns' (<[Z.of_nat n + 1 := f n]> acc)
  end.

(** [m] only ever adds requests satisfying [P] to the log. *)
Definition emits {O A} (P : Request -> Prop) (m : M O A) : Prop :=
  forall w, exists new : list Request,
    wire (snd (m w)) = (wire w ++ new)%list /\ Forall P new.

(** The six identity objects, in the order [_get_ident] reads them. *)
Definition ident_oids : list string :=
  ["sPDUIdentModelNumber"; "sPDUIdentSerialNumber"; "sPDUIdentHardwareRev";
   "sPDUIdentFirmwareRev"; "sPDUIdentDateOfManufacture";
   "sPDUMasterConfigPDUName"].

(** What the agent answers to the [i]-th identity read, the earlier ones
    being already in the log. *)
Definition ident_answer (env : Env) (log : list Request) (ip : string) (i : nat)
  : value :=
  get_reply env (log ++ map (ident_request ip) (take i ident_oids))
            (ident_request ip (default "" (ident_oids !! i))).

(** The only writes the program makes: an outlet's name, or the code 1 or
    2 on an outlet's control object. *)
Definition allowed_write (rq : Request) : Prop :=
  kind rq = SET ->
  (tag (var rq) = "sPDUOutletName" /\ exists s, val (var rq) = PyStr s)
  \/ (tag (var rq) = "sPDUOutletCtl"
      /\ (val (var rq) = PyInt 1 \/ val (var rq) = PyInt 2)).

(** Where [PDU.__init__] takes the host name and the address from. *)
Definition resolved (env : Env) (hostname hostIP : option string) (o : PDU.obj)
  : Prop :=
  if truthy hostname then
    hostname = Some (PDU.hostname o)
    /\ gethostbyname env (PDU.hostname o) = Some (PDU.hostIP o)
  else if truthy hostIP then
    hostIP = Some (PDU.hostIP o)
    /\ gethostbyaddr env (PDU.hostIP o) = Some (PDU.hostname o)
  else
    PDU.hostIP o = default_IP env
    /\ gethostbyaddr env (default_IP env) = Some (PDU.hostname o).

(** The instance whose identity attributes hold the six answers. *)
Definition identified (env : Env) (log : list Request) (h ip : string) : PDU.obj :=
  PDU.mkPDU h ip
    (Some (ident_answer env log ip 0)) (Some (ident_answer env log ip 1))
    (Some (ident_answer env log ip 2)) (Some (ident_answer env log ip 3))
    (Some (ident_answer env log ip 4)) (Some (ident_answer env log ip 5)).

(** * Properties *)

(** ** Loops *)

Lemma tabulate_lookup {A} (f : nat -> A) (len : nat) :
  forall (a : nat) (acc : gmap Z A) (k : Z),
    tabulate f (seq a len) acc !! k =
      if decide (Z.of_nat a + 1 <= k <= Z.of_nat a + Z.of_nat len)
      then Some (f (Z.to_nat (k - 1)))
      else acc !! k.
Proof.
  induction len as [|len IH]; intros a acc k; simpl.
  - case_decide; [lia | reflexivity].
  - rewrite IH. repeat case_decide; try lia; try reflexivity.
    + assert (k = Z.of_nat a + 1) as -> by lia.
      rewrite lookup_insert_eq. f_equal. f_equal. lia.
    + rewrite lookup_insert_ne by lia. reflexivity.
Qed.

Lemma seq_snoc (n : nat) : seq 0 (S n) = seq 0 n ++ [n].
Proof. rewrite seq_S. reflexivity. Qed.

Lemma for_tabulate {O A} (body : nat -> gmap Z A -> M O (gmap Z A))
    (rq : nat -> Request) (f : nat -> A) (o : O) (log0 : list Request)
    (bound : nat) :
  (forall n acc, (n < bound)%nat ->
     body n acc (mkWorld o (log0 ++ map rq (seq 0 n))) =
       (Ok (<[Z.of_nat n + 1 := f n]> acc),
        mkWorld o (log0 ++ map rq (seq 0 (S n))))) ->
  forall len a acc, (a + len <= bound)%nat ->
    for_ (seq a len) body acc (mkWorld o (log0 ++ map rq (seq 0 a))) =
      (Ok (tabulate f (seq a len) acc),
       mkWorld o (log0 ++ map rq (seq 0 (a + len)))).
Proof.
  intros Hbody. induction len as [|len IH]; intros a acc Hle; simpl.
  - unfold ret. rewrite Nat.add_0_r. reflexivity.
  - unfold bind. rewrite Hbody by lia.
    rewrite IH by lia.
    replace (a + S len)%nat with (S a + len)%nat by lia. reflexivity.
Qed.

(** ** The outlet directory: [get_outlet_names] and [set_outlet_names] *)

Section Directory.
Variable env : Env.

(** What [get_outlet_names] does, in closed form. *)
Lemma get_outlet_names_run (w : World PDU.obj) :
  let ip := PDU.hostIP (self w) in
  let log0 := wire w ++ [table_size_request ip] in
  let rq := outlet_name_get ip in
  let f n := get_reply env (log0 ++ map rq (seq 0 n)) (rq n) in
  PDU.get_outlet_names env w =
    match int_ (get_reply env (wire w) (table_size_request ip)) with
    | Ok n => (Ok (tabulate f (range n) ∅),
               mkWorld (self w) (log0 ++ map rq (range n)))
    | Raise e => (Raise e, mkWorld (self w) log0)
    end.
Proof.
  destruct w as [o log]. cbv zeta.
  unfold PDU.get_outlet_names, PDU._get_var, bind, getattr, snmpget, lift.
  simpl self; simpl wire. fold (table_size_request (PDU.hostIP o)).
  destruct (int_ _) as [n|e]; [|reflexivity].
  set (log0 := log ++ [table_size_request (PDU.hostIP o)]).
  set (rq := outlet_name_get (PDU.hostIP o)).
  set (f := fun n => get_reply env (log0 ++ map rq (seq 0 n)) (rq n)).
  match goal with |- for_ _ ?b _ _ = _ => set (body := b) end.
  assert (Hbody : forall k acc, (k < Z.to_nat n)%nat ->
            body k acc (mkWorld o (log0 ++ map rq (seq 0 k))) =
              (Ok (<[Z.of_nat k + 1 := f k]> acc),
               mkWorld o (log0 ++ map rq (seq 0 (S k))))).
  { intros k acc _. unfold body, bind, getattr, snmpget, ret. cbn [self wire].
    rewrite seq_snoc, map_app, app_assoc. reflexivity. }
  pose proof (for_tabulate body rq f o log0 _ Hbody (Z.to_nat n) 0%nat ∅) as H.
  simpl in H. rewrite app_nil_r in H. unfold range. apply H. lia.
Qed.

(** What [set_outlet_names] does, in closed form. *)
Lemma set_outlet_names_run (namelist : list string) (w : World PDU.obj) :
  let ip := PDU.hostIP (self w) in
  let log0 := wire w ++ [table_size_request ip] in
  let rq := outlet_name_set ip namelist in
  let f n := bool_ (set_reply env (log0 ++ map rq (seq 0 n)) (rq n)) in
  PDU.set_outlet_names env namelist w =
    match int_ (get_reply env (wire w) (table_size_request ip)) with
    | Ok n =>
        if (Z.of_nat (length namelist) =? n)%Z
        then (Ok (tabulate f (seq 0 (length namelist)) ∅),
              mkWorld (self w) (log0 ++ map rq (seq 0 (length namelist))))
        else (Raise (RuntimeError "Incorrect number of names."),
              mkWorld (self w) log0)
    | Raise e => (Raise e, mkWorld (self w) log0)
    end.
Proof.
  destruct w as [o log]. cbv zeta.
  unfold PDU.set_outlet_names, PDU._get_var, bind, getattr, snmpget, lift.
  simpl self; simpl wire. fold (table_size_request (PDU.hostIP o)).
  destruct (int_ _) as [n|e]; [|reflexivity].
  destruct (Z.eqb_spec (Z.of_nat (length namelist)) n) as [Hn|Hn]; cbn [negb];
    [|reflexivity].
  set (log0 := log ++ [table_size_request (PDU.hostIP o)]).
  set (rq := outlet_name_set (PDU.hostIP o) namelist).
  set (f := fun k => bool_ (set_reply env (log0 ++ map rq (seq 0 k)) (rq k))).
  match goal with |- for_ _ ?b _ _ = _ => set (body := b) end.
  assert (Hbody : forall k acc, (k < length namelist)%nat ->
            body k acc (mkWorld o (log0 ++ map rq (seq 0 k))) =
              (Ok (<[Z.of_nat k + 1 := f k]> acc),
               mkWorld o (log0 ++ map rq (seq 0 (S k))))).
  { intros k acc Hk. unfold body, bind, index_, getattr, snmpset, ret.
    destruct (lookup_lt_is_Some_2 namelist k Hk) as [nm Hnm].
    rewrite Hnm. cbn [self wire].
    rewrite seq_snoc, map_app, app_assoc. unfold f, rq, outlet_name_set.
    cbn [map]. rewrite Hnm. reflexivity. }
  pose proof (for_tabulate body rq f o log0 _ Hbody (length namelist) 0%nat ∅) as H.
  simpl in H. rewrite app_nil_r in H. unfold range.
  replace (Z.to_nat n) with (length namelist) by lia. apply H. lia.
Qed.

Lemma count_if_app (p : Request -> bool) (l l' : list Request) :
  count_if p (l ++ l') = (count_if p l + count_if p l')%nat.
Proof. unfold count_if. rewrite filter_app, length_app. reflexivity. Qed.

Lemma count_if_map_none (p : Request -> bool) (rq : nat -> Request) (ns : list nat) :
  (forall n, p (rq n) = false) -> count_if p (map rq ns) = 0%nat.
Proof.
  intros Hp. unfold count_if. induction ns as [|n ns IH]; [reflexivity|].
  cbn [map]. rewrite filter_cons_False; [exact IH|].
  rewrite Hp. discriminate.
Qed.

Lemma count_if_one (p : Request -> bool) (rq : Request) :
  count_if p [rq] = if p rq then 1%nat else 0%nat.
Proof.
  unfold count_if. destruct (p rq) eqn:E.
  - rewrite filter_cons_True by exact E. reflexivity.
  - rewrite filter_cons_False by (rewrite E; discriminate). reflexivity.
Qed.

(** C1: when the list of names does not have as many entries as the
    outlet table size the device reports, [set_outlet_names] raises its
    validation error, [RuntimeError("Incorrect number of names.")]; the only
    exchange it made is the read of the table size, so no SET reached the
    device and no outlet name was written. *)
Theorem set_outlet_names_wrong_length
    (namelist : list string) (w : World PDU.obj) (n : Z) :
  int_ (get_reply env (wire w) (table_size_request (PDU.hostIP (self w)))) = Ok n ->
  Z.of_nat (length namelist) <> n ->
  PDU.set_outlet_names env namelist w =
    (Raise (RuntimeError "Incorrect number of names."),
     mkWorld (self w) (wire w ++ [table_size_request (PDU.hostIP (self w))]))
  /\ count_if is_set (wire (snd (PDU.set_outlet_names env namelist w))) =
       count_if is_set (wire w).
Proof.
  intros Hsize Hlen.
  assert (PDU.set_outlet_names env namelist w =
    (Raise (RuntimeError "Incorrect number of names."),
     mkWorld (self w) (wire w ++ [table_size_request (PDU.hostIP (self w))]))) as Hrun.
  { rewrite set_outlet_names_run. cbv zeta. rewrite Hsize.
    destruct (Z.eqb_spec (Z.of_nat (length namelist)) n); [contradiction|reflexivity]. }
  split; [exact Hrun|].
  rewrite Hrun. cbn [snd wire]. rewrite count_if_app, count_if_one.
  cbn. lia.
Qed.

(** C2: when the list has exactly as many names as the device reports
    outlets, [set_outlet_names] returns; after the read of the table size it
    issues one SET per outlet, for the indices 1..N in that order, each
    carrying the name at that position, whatever the earlier SETs answered;
    the dict it returns has exactly the keys 1..N, and maps each index to
    the truth value of what that index's SET handed back.  In particular,
    when exactly one SET fails, that index alone maps to [False]. *)
Theorem set_outlet_names_per_index
    (namelist : list string) (w : World PDU.obj) (n : Z) :
  let ip := PDU.hostIP (self w) in
  let log0 := wire w ++ [table_size_request ip] in
  let rq := outlet_name_set ip namelist in
  let ok i := bool_ (set_reply env (log0 ++ map rq (seq 0 i)) (rq i)) in
  int_ (get_reply env (wire w) (table_size_request ip)) = Ok n ->
  Z.of_nat (length namelist) = n ->
  exists result : gmap Z bool,
    PDU.set_outlet_names env namelist w =
      (Ok result, mkWorld (self w) (log0 ++ map rq (seq 0 (length namelist))))
    /\ (forall i, (i < length namelist)%nat ->
          result !! (Z.of_nat i + 1) = Some (ok i))
    /\ (forall k, k < 1 \/ n < k -> result !! k = None)
    /\ (forall j, (j < length namelist)%nat ->
          (forall i, (i < length namelist)%nat -> ok i = false <-> i = j) ->
          forall i, (i < length namelist)%nat ->
            result !! (Z.of_nat i + 1) = Some (negb (i =? j)%nat)).
Proof.
  intros ip log0 rq ok Hsize Hlen.
  exists (tabulate ok (seq 0 (length namelist)) ∅).
  assert (Hlook : forall i, (i < length namelist)%nat ->
            tabulate ok (seq 0 (length namelist)) ∅ !! (Z.of_nat i + 1) = Some (ok i)).
  { intros i Hi. rewrite tabulate_lookup. case_decide; [|lia].
    do 2 f_equal. lia. }
  split; [|split; [exact Hlook|split]].
  - rewrite set_outlet_names_run. cbv zeta. fold ip. rewrite Hsize.
    destruct (Z.eqb_spec (Z.of_nat (length namelist)) n); [reflexivity|contradiction].
  - intros k Hk. rewrite tabulate_lookup. case_decide; [lia|apply lookup_empty].
  - intros j Hj Honly i Hi. rewrite Hlook by exact Hi. f_equal.
    destruct (Nat.eqb_spec i j) as [->|Hne]; cbn [negb].
    + apply Honly; [exact Hj|reflexivity].
    + destruct (ok i) eqn:E; [reflexivity|].
      exfalso. apply Hne. apply (Honly i Hi). exact E.
Qed.

(** C7 (as amended): the outlet table size is not cached.  Every call of
    [get_outlet_names] and every call of [set_outlet_names] issues one GET
    of [sPDUOutletConfigTableSize] of its own, whatever was asked before. *)
Theorem table_size_read_on_every_call (namelist : list string) (w : World PDU.obj) :
  count_if is_table_size_get (wire (snd (PDU.get_outlet_names env w))) =
    S (count_if is_table_size_get (wire w))
  /\ count_if is_table_size_get (wire (snd (PDU.set_outlet_names env namelist w))) =
       S (count_if is_table_size_get (wire w)).
Proof.
  split.
  - rewrite get_outlet_names_run. cbv zeta.
    destruct (int_ _); cbn [snd wire];
      rewrite ?count_if_app, ?count_if_one, ?count_if_map_none by reflexivity;
      cbn; lia.
  - rewrite set_outlet_names_run. cbv zeta.
    destruct (int_ _); [destruct (_ =? _)%Z|]; cbn [snd wire];
      rewrite ?count_if_app, ?count_if_one, ?count_if_map_none by reflexivity;
      cbn; lia.
Qed.

(** C8 (as amended): when the device reports a table size N,
    [get_outlet_names] returns; after the read of the table size it issues
    one GET of [sPDUOutletCtlName] per outlet, for the indices 1..N in that
    order; the dict it returns has exactly the keys 1..N and maps each
    index to whatever that GET handed back.  A GET that could not fetch its
    value hands back [None]: the call does not stop there, it stores [None]
    under that index and goes on with the remaining outlets. *)
Theorem get_outlet_names_mapping (w : World PDU.obj) (n : Z) :
  let ip := PDU.hostIP (self w) in
  let log0 := wire w ++ [table_size_request ip] in
  let rq := outlet_name_get ip in
  let answer i := get_reply env (log0 ++ map rq (seq 0 i)) (rq i) in
  int_ (get_reply env (wire w) (table_size_request ip)) = Ok n ->
  exists names : gmap Z value,
    PDU.get_outlet_names env w =
      (Ok names, mkWorld (self w) (log0 ++ map rq (range n)))
    /\ (forall i, (i < Z.to_nat n)%nat ->
          names !! (Z.of_nat i + 1) = Some (answer i))
    /\ (forall k, k < 1 \/ n < k -> names !! k = None).
Proof.
  intros ip log0 rq answer Hsize.
  exists (tabulate answer (range n) ∅). split; [|split].
  - rewrite get_outlet_names_run. cbv zeta. fold ip. rewrite Hsize. reflexivity.
  - intros i Hi. unfold range. rewrite tabulate_lookup. case_decide; [|lia].
    do 2 f_equal. lia.
  - intros k Hk. unfold range. rewrite tabulate_lookup.
    case_decide; [lia|apply lookup_empty].
Qed.

End Directory.

(** ** Device identity and device name *)

Section Identity.
Variable env : Env.

(** C5 (as amended): [_get_ident] issues six GETs, for model, serial
    number, hardware revision, firmware revision, date of manufacture and
    device name, in that order, and never fails.  Each attribute receives
    what its GET handed back, so a GET that could not fetch its value leaves
    [None] in that attribute while the others are populated as usual. *)
Theorem get_ident_never_fails (w : World PDU.obj) :
  let ip := PDU.hostIP (self w) in
  let answer := ident_answer env (wire w) ip in
  PDU._get_ident env w =
    (Ok tt,
     mkWorld (PDU.mkPDU (PDU.hostname (self w)) ip
                (Some (answer 0%nat)) (Some (answer 1%nat)) (Some (answer 2%nat))
                (Some (answer 3%nat)) (Some (answer 4%nat)) (Some (answer 5%nat)))
             (wire w ++ map (ident_request ip) ident_oids)).
Proof.
  destruct w as [o log]. cbv zeta.
  unfold PDU._get_ident, PDU._get_var, bind, getattr, setattr, snmpget, ident_answer.
  cbn [self wire PDU.hostIP PDU.hostname PDU.set_model PDU.set_serial
       PDU.set_hw_rev PDU.set_fw_rev PDU.set_date PDU.set_name_attr
       PDU.model PDU.serial PDU.hw_rev PDU.fw_rev PDU.date PDU.name].
  cbn [ident_oids take map lookup list_lookup default from_option].
  repeat rewrite <- app_assoc. cbn [app]. rewrite app_nil_r.
  reflexivity.
Qed.

(** C4: [PDU.set_name] builds the request for [sPDUMasterConfigPDUName] and
    then passes the unbound name [namevar] to [snmpset]: for every name it
    raises [NameError] and leaves the object and the log as they were; no
    SET is issued and nothing is read back. *)
Theorem set_name_raises_NameError (name : string) (w : World PDU.obj) :
  PDU.set_name env name w = (Raise (NameError "namevar"), w).
Proof. reflexivity. Qed.

(** C10: constructing a PDU with a non-empty [name] never yields an
    instance: once the addresses are resolved, [set_name] raises before
    [_get_ident] runs, and the log is left as it was. *)
Theorem init_with_name_raises
    (hostname hostIP name : option string) (log : list Request) :
  truthy name = true ->
  exists e, PDU.__init__ env hostname hostIP name log = (Raise e, log)
    /\ (e = NameError "namevar" \/ exists h, e = SocketError h).
Proof.
  intros Hname. unfold PDU.__init__. rewrite Hname.
  destruct (truthy hostname); [|destruct (truthy hostIP)];
    match goal with |- context [match ?r with Some _ => _ | None => _ end] =>
      destruct r end;
    eexists; (split; [reflexivity|]); eauto.
Qed.

End Identity.

(** ** Outlet state *)

Lemma state_lookup_in_table (code : Z) :
  1 <= code <= 4 ->
  exists text, Outlet.state !! code = Some text
    /\ In (code, text) [(1, "on"); (2, "off"); (3, "rebooting"); (4, "error")].
Proof.
  intros H. assert (code = 1 \/ code = 2 \/ code = 3 \/ code = 4) as Hc by lia.
  destruct Hc as [-> | [-> | [-> | ->]]]; eexists; (split; [reflexivity|]);
    cbn; tauto.
Qed.

Lemma state_lookup_off_table (code : Z) :
  ~ (1 <= code <= 4) -> Outlet.state !! code = None.
Proof.
  intros H. unfold Outlet.state.
  rewrite !lookup_insert_ne by lia. apply lookup_empty.
Qed.

Section OutletState.
Variable env : Env.

(** What [get_state] does, in closed form. *)
Lemma get_state_run (w : World Outlet.obj) :
  let rq := outlet_state_get (PDU.hostIP (Outlet.pdu (self w)))
                             (Outlet.number (self w)) in
  let log1 := wire w ++ [rq] in
  Outlet.get_state env w =
    match int_ (get_reply env (wire w) rq) with
    | Raise e => (Raise e, mkWorld (self w) log1)
    | Ok code =>
        match Outlet.state !! code with
        | None =>
            (Raise (KeyError code),
             mkWorld (Outlet.set_state_attr code (self w)) log1)
        | Some text =>
            (Ok (code, text),
             mkWorld (Outlet.set_status text (Outlet.set_state_attr code (self w)))
                     log1)
        end
    end.
Proof.
  destruct w as [o log]. cbv zeta.
  unfold Outlet.get_state, bind, getattr, setattr, snmpget, lift, getitem.
  cbn [self wire]. fold (outlet_state_get (PDU.hostIP (Outlet.pdu o)) (Outlet.number o)).
  destruct (int_ _) as [code|e]; [|reflexivity].
  destruct (Outlet.state !! code); reflexivity.
Qed.

(** C3: [get_state] reads the outlet control object once and decodes the
    answer through the class table.  A numeric answer 1, 2, 3 or 4 is
    returned together with its text; whatever [get_state] returns is a pair
    of that table, 1 "on", 2 "off", 3 "rebooting", 4 "error"; a numeric
    answer outside the table makes it raise (the dict lookup's [KeyError])
    instead of returning any text. *)
Theorem get_state_decodes (w : World Outlet.obj) :
  let rq := outlet_state_get (PDU.hostIP (Outlet.pdu (self w)))
                             (Outlet.number (self w)) in
  let answer := get_reply env (wire w) rq in
  let table := [(1, "on"); (2, "off"); (3, "rebooting"); (4, "error")] in
  (forall code, int_ answer = Ok code -> 1 <= code <= 4 ->
     exists text, In (code, text) table
       /\ fst (Outlet.get_state env w) = Ok (code, text))
  /\ (forall code text, fst (Outlet.get_state env w) = Ok (code, text) ->
        1 <= code <= 4 /\ In (code, text) table)
  /\ (forall code, int_ answer = Ok code -> ~ (1 <= code <= 4) ->
        fst (Outlet.get_state env w) = Raise (KeyError code)).
Proof.
  cbv zeta. rewrite get_state_run. cbv zeta. split; [|split].
  - intros code Hans Hin. rewrite Hans.
    destruct (state_lookup_in_table code Hin) as (text & Hl & Ht).
    exists text. rewrite Hl. split; [exact Ht|reflexivity].
  - intros code text. destruct (int_ _) as [c|e]; [|discriminate].
    destruct (decide (1 <= c <= 4)) as [Hin|Hout].
    + destruct (state_lookup_in_table c Hin) as (t & Hl & Ht).
      rewrite Hl. cbn [fst]. intros Heq. injection Heq as <- <-.
      split; [exact Hin|exact Ht].
    + rewrite (state_lookup_off_table c Hout). discriminate.
  - intros code Hans Hout. rewrite Hans, (state_lookup_off_table code Hout).
    reflexivity.
Qed.

(** C6: [set_state] sends code 1 for [True] and 2 for [False], in one SET
    of the outlet control object with the community 'private', and then
    reads the state back with one GET; these two exchanges are all it
    does.  Whenever the state read back is one of the table, whichever it
    is, [set_state] returns the truth value of what the SET handed back;
    and it never returns anything else. *)
Theorem set_state_reports_the_set (on : bool) (w : World Outlet.obj) :
  let ip := PDU.hostIP (Outlet.pdu (self w)) in
  let num := Outlet.number (self w) in
  let sent := outlet_state_set ip num (if on then 1 else 2) in
  let report := bool_ (set_reply env (wire w) sent) in
  let reread := get_reply env (wire w ++ [sent]) (outlet_state_get ip num) in
  wire (snd (Outlet.set_state env on w)) = wire w ++ [sent; outlet_state_get ip num]
  /\ (forall code, int_ reread = Ok code -> 1 <= code <= 4 ->
        fst (Outlet.set_state env on w) = Ok report)
  /\ (forall b, fst (Outlet.set_state env on w) = Ok b -> b = report).
Proof.
  destruct w as [o log]. cbv zeta.
  unfold Outlet.set_state, bind, getattr, snmpset. cbn [self wire].
  fold (outlet_state_set (PDU.hostIP (Outlet.pdu o)) (Outlet.number o)
          (if on then 1 else 2)).
  rewrite get_state_run. cbv zeta. cbn [self wire].
  set (sent := outlet_state_set _ _ _).
  set (rq := outlet_state_get _ _).
  split; [|split].
  - destruct (int_ _) as [c|e]; [destruct (Outlet.state !! c)|];
      cbn [snd wire]; rewrite <- app_assoc; reflexivity.
  - intros code Hans Hin. rewrite Hans.
    destruct (state_lookup_in_table code Hin) as (text & Hl & _).
    rewrite Hl. reflexivity.
  - intros b. destruct (int_ _) as [c|e]; [destruct (Outlet.state !! c)|];
      cbn [fst]; [|discriminate|discriminate].
    unfold ret. cbn [fst]. intros Heq. injection Heq as <-. reflexivity.
Qed.

End OutletState.

(** ** Community strings *)

Section Emits.
Context {O : Type} (P : Request -> Prop).

Lemma emits_silent {A} (m : M O A) :
  (forall w, wire (snd (m w)) = wire w) -> emits P m.
Proof.
  intros H w. exists []. rewrite H, app_nil_r. split; [reflexivity|constructor].
Qed.

Lemma emits_bind {A B} (m : M O A) (k : A -> M O B) :
  emits P m -> (forall a, emits P (k a)) -> emits P (bind m k).
Proof.
  intros Hm Hk w. unfold bind.
  destruct (Hm w) as (new1 & E1 & F1).
  destruct (m w) as [[a|e] w1]; cbn [snd] in *.
  - destruct (Hk a w1) as (new2 & E2 & F2).
    exists (new1 ++ new2). rewrite E2, E1, app_assoc.
    split; [reflexivity|]. apply Forall_app. split; assumption.
  - exists new1. split; assumption.
Qed.

Lemma emits_for {A} (body : nat -> A -> M O A) (ns : list nat) :
  (forall n acc, emits P (body n acc)) -> forall acc, emits P (for_ ns body acc).
Proof.
  intros Hbody. induction ns as [|n ns IH]; intros acc; cbn [for_].
  - apply emits_silent. reflexivity.
  - apply emits_bind; [apply Hbody|exact IH].
Qed.

Lemma emits_snmpget (env : Env) (v : Varbind) (ver : Z) (host comm : string) :
  P (mkRequest GET v ver host comm) -> emits P (snmpget (O:=O) env v ver host comm).
Proof.
  intros HP w. eexists. split; [reflexivity|]. repeat constructor. exact HP.
Qed.

Lemma emits_snmpset (env : Env) (v : Varbind) (ver : Z) (host comm : string) :
  P (mkRequest SET v ver host comm) -> emits P (snmpset (O:=O) env v ver host comm).
Proof.
  intros HP w. eexists. split; [reflexivity|]. repeat constructor. exact HP.
Qed.

Lemma emits_getitem {A} (d : gmap Z A) (k : Z) : emits P (getitem (O:=O) d k).
Proof. apply emits_silent. intros w. unfold getitem. destruct (d !! k); reflexivity. Qed.

Lemma emits_index {A} (l : list A) (n : nat) : emits P (index_ (O:=O) l n).
Proof. apply emits_silent. intros w. unfold index_. destruct (l !! n); reflexivity. Qed.

Lemma emits_split (v : value) : emits P (split_ (O:=O) v).
Proof. apply emits_silent. intros w. destruct v; reflexivity. Qed.

Lemma emits_lift {A} (r : Result A) : emits P (lift (O:=O) r).
Proof. apply emits_silent. reflexivity. Qed.

End Emits.

Ltac emits_step :=
  first
    [ apply emits_bind; [|intros ?]
    | apply emits_for; intros ? ?
    | apply emits_snmpget; reflexivity
    | apply emits_snmpset; reflexivity
    | apply emits_getitem
    | apply emits_index
    | apply emits_split
    | apply emits_lift
    | apply emits_silent; intros ?; reflexivity ].

Ltac emits_auto := cbv zeta; repeat emits_step.

Section Community.
Variable env : Env.

Lemma PDU_get_var_emits (v : Varbind) : emits fixed_community (PDU._get_var env v).
Proof. unfold PDU._get_var. emits_auto. Qed.

Lemma PDU_get_ident_emits : emits fixed_community (PDU._get_ident env).
Proof. unfold PDU._get_ident, PDU._get_var. emits_auto. Qed.

Lemma PDU_set_name_emits (name : string) : emits fixed_community (PDU.set_name env name).
Proof. apply emits_silent. reflexivity. Qed.

Lemma PDU_get_outlet_names_emits : emits fixed_community (PDU.get_outlet_names env).
Proof. unfold PDU.get_outlet_names, PDU._get_var. emits_auto. Qed.

Lemma PDU_set_outlet_names_emits (namelist : list string) :
  emits fixed_community (PDU.set_outlet_names env namelist).
Proof.
  unfold PDU.set_outlet_names, PDU._get_var. emits_auto.
  destruct (negb _); emits_auto.
Qed.

Lemma Outlet_get_name_emits : emits fixed_community (Outlet.get_name env).
Proof. unfold Outlet.get_name. emits_auto. Qed.

Lemma Outlet_get_state_emits : emits fixed_community (Outlet.get_state env).
Proof. unfold Outlet.get_state. emits_auto. Qed.

Lemma init_emits {O A} (body : M O A) (w : World O) :
  emits fixed_community body ->
  exists new : list Request,
    snd (match body w with
         | (Ok _, w') => (Ok (self w'), wire w')
         | (Raise e, w') => (Raise e, wire w')
         end) = wire w ++ new
    /\ Forall fixed_community new.
Proof.
  intros Hbody. destruct (Hbody w) as (new & E & F).
  exists new. destruct (body w) as [[a|e] w']; split; assumption.
Qed.

(** C9 (as amended): the community strings are constants of the program.
    Whatever the environment, the instance and the arguments, every request
    that any method or constructor of [PDU] and [Outlet] adds to the log
    carries 'public' when it is a GET and 'private' when it is a SET; there
    is no input through which another credential could be supplied. *)
Theorem community_strings_are_fixed :
  (forall v, emits fixed_community (PDU._get_var env v))
  /\ emits fixed_community (PDU._get_ident env)
  /\ (forall name, emits fixed_community (PDU.set_name env name))
  /\ emits fixed_community (PDU.get_outlet_states env)
  /\ emits fixed_community (PDU.get_pending env)
  /\ emits fixed_community (PDU.get_outlet_names env)
  /\ (forall namelist, emits fixed_community (PDU.set_outlet_names env namelist))
  /\ emits fixed_community (Outlet.get_name env)
  /\ (forall name, emits fixed_community (Outlet.set_name env name))
  /\ emits fixed_community (Outlet.get_state env)
  /\ (forall on, emits fixed_community (Outlet.set_state env on))
  /\ (forall hostname hostIP name log, exists new : list Request,
        snd (PDU.__init__ env hostname hostIP name log) = log ++ new
        /\ Forall fixed_community new)
  /\ (forall pdu number log, exists new : list Request,
        snd (Outlet.__init__ env pdu number log) = log ++ new
        /\ Forall fixed_community new).
Proof.
  repeat split.
  - apply PDU_get_var_emits.
  - apply PDU_get_ident_emits.
  - apply PDU_set_name_emits.
  - unfold PDU.get_outlet_states, PDU._get_var. emits_auto.
  - unfold PDU.get_pending, PDU._get_var. emits_auto.
  - apply PDU_get_outlet_names_emits.
  - apply PDU_set_outlet_names_emits.
  - apply Outlet_get_name_emits.
  - intros name. unfold Outlet.set_name. emits_auto.
  - apply Outlet_get_state_emits.
  - intros on. unfold Outlet.set_state. emits_auto.
  - intros hostname hostIP name log. unfold PDU.__init__.
    assert (forall r : Result (string * string), exists new : list Request,
      snd (match r with
           | Raise e => (Raise e, log)
           | Ok (h, ip) =>
               match
                 ((if truthy name
                   then PDU.set_name env (default "" name) ;;; ret tt
                   else ret tt) ;;; PDU._get_ident env)
                   (mkWorld (PDU.mkPDU h ip None None None None None None) log)
               with
               | (Ok _, w) => (Ok (self w), wire w)
               | (Raise e, w) => (Raise e, wire w)
               end
           end) = log ++ new /\ Forall fixed_community new) as H.
    { intros [[h ip]|e].
      - apply (init_emits _ (mkWorld _ log)).
        apply emits_bind; [|intros ?; apply PDU_get_ident_emits].
        destruct (truthy name); emits_auto.
      - exists []. rewrite app_nil_r. split; [reflexivity|constructor]. }
    apply H.
  - intros pdu number log. unfold Outlet.__init__.
    apply (init_emits _ (mkWorld _ log)).
    apply emits_bind; [apply Outlet_get_name_emits|intros v].
    apply emits_bind; [destruct v; emits_auto|intros ?; apply Outlet_get_state_emits].
Qed.

End Community.

(** ** Concrete runs on the simulated rack *)

(** Two names for three outlets: refused, and only the table size was
    read. *)
Lemma set_outlet_names_wrong_length_witness :
  PDU.set_outlet_names (rack sound None) ["Rack Fan"; "TCT"] (mkWorld the_pdu []) =
    (Raise (RuntimeError "Incorrect number of names."),
     mkWorld the_pdu [table_size_request "192.168.1.50"])
  /\ count_if is_set
       (wire (snd (PDU.set_outlet_names (rack sound None) ["Rack Fan"; "TCT"]
                     (mkWorld the_pdu [])))) = 0%nat.
Proof.
  apply (set_outlet_names_wrong_length (rack sound None) ["Rack Fan"; "TCT"]
           (mkWorld the_pdu []) 3).
  - reflexivity.
  - discriminate.
Defined.

(** Three names for three outlets, the SET for outlet 2 failing: outlet 2
    alone is reported as not renamed. *)
Lemma set_outlet_names_per_index_witness :
  exists result : gmap Z bool,
    fst (PDU.set_outlet_names (rack (fails_on "sPDUOutletName" "2") None)
           ["Rack Fan"; "TCT"; "gpu2 a"] (mkWorld the_pdu [])) = Ok result
    /\ result !! 1 = Some true
    /\ result !! 2 = Some false
    /\ result !! 3 = Some true
    /\ result !! 4 = None.
Proof.
  destruct (set_outlet_names_per_index (rack (fails_on "sPDUOutletName" "2") None)
              ["Rack Fan"; "TCT"; "gpu2 a"] (mkWorld the_pdu []) 3
              eq_refl eq_refl) as (result & Hrun & Hin & Hout & _).
  exists result. rewrite Hrun. split; [reflexivity|].
  split; [exact (Hin 0%nat (Nat.lt_0_succ 2))|].
  split; [exact (Hin 1%nat (proj1 (Nat.succ_lt_mono 0 2) (Nat.lt_0_succ 1)))|].
  split; [exact (Hin 2%nat (Nat.lt_succ_diag_r 2))|].
  apply Hout. right. reflexivity.
Defined.

(** The table size is read again by the second directory operation. *)
Lemma table_size_read_twice :
  let w1 := snd (PDU.get_outlet_names (rack sound None) (mkWorld the_pdu [])) in
  let w2 := snd (PDU.set_outlet_names (rack sound None)
                   ["Rack Fan"; "TCT"; "gpu2 a"] w1) in
  count_if is_table_size_get (wire w1) = 1%nat
  /\ count_if is_table_size_get (wire w2) = 2%nat
  /\ nth_error (wire w2) 4 = Some (table_size_request "192.168.1.50").
Proof. vm_compute. repeat split. Qed.

(** Outlet 2's name cannot be fetched: the call returns all the same,
    with [None] under key 2. *)
Lemma get_outlet_names_keeps_going :
  exists names : gmap Z value,
    fst (PDU.get_outlet_names (rack (fails_on "sPDUOutletCtlName" "2") None)
           (mkWorld the_pdu [])) = Ok names
    /\ get_reply (rack (fails_on "sPDUOutletCtlName" "2") None)
         [table_size_request "192.168.1.50"; outlet_name_get "192.168.1.50" 0]
         (outlet_name_get "192.168.1.50" 1) = PyNone
    /\ names !! 1 = Some (PyStr "Outlet 1")
    /\ names !! 2 = Some PyNone
    /\ names !! 3 = Some (PyStr "Outlet 3").
Proof. eexists. vm_compute. repeat split. Qed.

Lemma get_outlet_names_mapping_witness :
  exists names : gmap Z value,
    fst (PDU.get_outlet_names (rack sound None) (mkWorld the_pdu [])) = Ok names
    /\ names !! 1 = Some (PyStr "Outlet 1")
    /\ names !! 3 = Some (PyStr "Outlet 3")
    /\ names !! 4 = None.
Proof.
  destruct (get_outlet_names_mapping (rack sound None) (mkWorld the_pdu []) 3 eq_refl)
    as (names & Hrun & Hin & Hout).
  exists names. rewrite Hrun. split; [reflexivity|].
  split; [exact (Hin 0%nat (Nat.lt_0_succ 2))|].
  split; [exact (Hin 2%nat (Nat.lt_succ_diag_r 2))|].
  apply Hout. right. reflexivity.
Defined.

(** The serial number cannot be fetched: the constructor returns an
    instance whose [serial] is [None] and whose other attributes are set. *)
Lemma ident_with_failed_get :
  let env := rack (fails_on "sPDUIdentSerialNumber" "0") None in
  get_reply env [ident_request "192.168.1.50" "sPDUIdentModelNumber"]
            (ident_request "192.168.1.50" "sPDUIdentSerialNumber") = PyNone
  /\ PDU.__init__ env None None None [] =
       (Ok (PDU.mkPDU "pdu" "192.168.1.50" (Some (PyStr "AP7900")) (Some PyNone)
              (Some (PyStr "A")) (Some (PyStr "v3.9.2"))
              (Some (PyStr "03/15/2006")) (Some (PyStr "dto-pdu"))),
        map (ident_request "192.168.1.50") ident_oids).
Proof. split; reflexivity. Qed.

(** Renaming the device on the simulated rack. *)
Lemma set_name_on_rack :
  PDU.set_name (rack sound None) "dto-pdu" (mkWorld the_pdu []) =
    (Raise (NameError "namevar"), mkWorld the_pdu []).
Proof. reflexivity. Qed.

Lemma init_with_name_raises_witness :
  exists e, PDU.__init__ (rack sound None) (Some "pdu") None (Some "dto-pdu") [] =
              (Raise e, [])
    /\ (e = NameError "namevar" \/ exists h, e = SocketError h).
Proof.
  apply (init_with_name_raises (rack sound None) (Some "pdu") None (Some "dto-pdu") []).
  reflexivity.
Defined.

Lemma init_with_name_on_rack :
  PDU.__init__ (rack sound None) (Some "pdu") None (Some "dto-pdu") [] =
    (Raise (NameError "namevar"), []).
Proof. reflexivity. Qed.

(** Outlet 2 is off; an agent answering 7 makes [get_state] raise. *)
Lemma get_state_decodes_witness :
  fst (Outlet.get_state (rack sound None) (mkWorld outlet2 [])) = Ok (2, "off")
  /\ fst (Outlet.get_state (rack sound (Some (PyStr "7"))) (mkWorld outlet2 [])) =
       Raise (KeyError 7).
Proof.
  split.
  - destruct (get_state_decodes (rack sound None) (mkWorld outlet2 []))
      as (Hin & Hret & _).
    destruct (Hin 2 eq_refl ltac:(lia)) as (text & _ & Hrun).
    rewrite Hrun. destruct (Hret 2 text Hrun) as (_ & Ht).
    cbn in Ht. intuition congruence.
  - destruct (get_state_decodes (rack sound (Some (PyStr "7"))) (mkWorld outlet2 []))
      as (_ & _ & Hout).
    apply (Hout 7 eq_refl). lia.
Defined.

(** Switching outlet 2 on: the SET succeeds and is reported, also when the
    outlet is read back as rebooting. *)
Lemma set_state_reports_the_set_witness :
  fst (Outlet.set_state (rack sound None) true (mkWorld outlet2 [])) = Ok true
  /\ fst (Outlet.set_state (rack sound (Some (PyStr "3"))) true (mkWorld outlet2 [])) =
       Ok true
  /\ fst (Outlet.set_state (rack (set_fails_on "sPDUOutletCtl" "2") None)
            true (mkWorld outlet2 [])) = Ok false.
Proof.
  split; [|split].
  - destruct (set_state_reports_the_set (rack sound None) true (mkWorld outlet2 []))
      as (_ & Hrun & _).
    apply (Hrun 1 eq_refl). lia.
  - destruct (set_state_reports_the_set (rack sound (Some (PyStr "3"))) true
                (mkWorld outlet2 [])) as (_ & Hrun & _).
    apply (Hrun 3 eq_refl). lia.
  - destruct (set_state_reports_the_set
                (rack (set_fails_on "sPDUOutletCtl" "2") None) true
                (mkWorld outlet2 [])) as (_ & Hrun & _).
    apply (Hrun 2 eq_refl). lia.
Defined.

(** No environment, instance or request makes [_get_var] send a community
    string of the deployment's choosing. *)
Lemma community_is_not_configurable :
  ~ (forall secret : string,
       exists (env : Env) (o : PDU.obj) (v : Varbind) (log : list Request),
         Forall (fun rq => Community rq = secret)
                (wire (snd (PDU._get_var env v (mkWorld o log))))).
Proof.
  intros H. destruct (H "s3cret") as (env & o & v & log & HF).
  unfold PDU._get_var, bind, getattr, snmpget in HF. cbn [snd wire self] in HF.
  apply Forall_app in HF as [_ HF]. inversion HF as [|? ? Hc _]. discriminate Hc.
Qed.

(** * Further properties of the two classes *)

(** ** Constructing a PDU *)

Section Construction.
Variable env : Env.

(** [_get_ident] in closed form, on an explicit instance and log. *)
Lemma get_ident_run (o : PDU.obj) (log : list Request) :
  PDU._get_ident env (mkWorld o log) =
    (Ok tt,
     mkWorld (PDU.mkPDU (PDU.hostname o) (PDU.hostIP o)
                (Some (ident_answer env log (PDU.hostIP o) 0))
                (Some (ident_answer env log (PDU.hostIP o) 1))
                (Some (ident_answer env log (PDU.hostIP o) 2))
                (Some (ident_answer env log (PDU.hostIP o) 3))
                (Some (ident_answer env log (PDU.hostIP o) 4))
                (Some (ident_answer env log (PDU.hostIP o) 5)))
             (log ++ map (ident_request (PDU.hostIP o)) ident_oids)).
Proof.
  unfold PDU._get_ident, PDU._get_var, bind, getattr, setattr, snmpget, ident_answer.
  cbn [self wire PDU.hostIP PDU.hostname PDU.set_model PDU.set_serial
       PDU.set_hw_rev PDU.set_fw_rev PDU.set_date PDU.set_name_attr
       PDU.model PDU.serial PDU.hw_rev PDU.fw_rev PDU.date PDU.name].
  cbn [ident_oids take map lookup list_lookup default from_option].
  repeat rewrite <- app_assoc. cbn [app]. rewrite app_nil_r.
  reflexivity.
Qed.

(** The instance [__init__] builds once the host name [h] and the address
    [ip] are known and no rename is asked for. *)
Lemma init_body_run (h ip : string) (name : option string) (log : list Request) :
  truthy name = false ->
  ((if truthy name then PDU.set_name env (default "" name) ;;; ret tt else ret tt) ;;;
   PDU._get_ident env) (mkWorld (PDU.mkPDU h ip None None None None None None) log) =
    (Ok tt,
     mkWorld (PDU.mkPDU h ip
                (Some (ident_answer env log ip 0)) (Some (ident_answer env log ip 1))
                (Some (ident_answer env log ip 2)) (Some (ident_answer env log ip 3))
                (Some (ident_answer env log ip 4)) (Some (ident_answer env log ip 5)))
             (log ++ map (ident_request ip) ident_oids)).
Proof.
  intros Hname. rewrite Hname.
  change (PDU._get_ident env (mkWorld (PDU.mkPDU h ip None None None None None None) log)
          = (Ok tt,
     mkWorld (PDU.mkPDU h ip
                (Some (ident_answer env log ip 0)) (Some (ident_answer env log ip 1))
                (Some (ident_answer env log ip 2)) (Some (ident_answer env log ip 3))
                (Some (ident_answer env log ip 4)) (Some (ident_answer env log ip 5)))
             (log ++ map (ident_request ip) ident_oids))).
  apply get_ident_run.
Qed.

Lemma init_body_named (h ip : string) (name : option string) (log : list Request) :
  truthy name = true ->
  ((if truthy name then PDU.set_name env (default "" name) ;;; ret tt else ret tt) ;;;
   PDU._get_ident env) (mkWorld (PDU.mkPDU h ip None None None None None None) log) =
    (Raise (NameError "namevar"),
     mkWorld (PDU.mkPDU h ip None None None None None None) log).
Proof. intros Hname. rewrite Hname. reflexivity. Qed.

Lemma truthy_Some (o : option string) :
  truthy o = true -> o = Some (default "" o).
Proof. destruct o; [reflexivity|discriminate]. Qed.

(** Whatever [__init__] returns is an identified instance at a resolved
    address, built without a rename. *)
Lemma init_inv (hostname hostIP name : option string) (log log' : list Request)
    (o : PDU.obj) :
  PDU.__init__ env hostname hostIP name log = (Ok o, log') ->
  truthy name = false
  /\ resolved env hostname hostIP o
  /\ o = identified env log (PDU.hostname o) (PDU.hostIP o)
  /\ log' = log ++ map (ident_request (PDU.hostIP o)) ident_oids.
Proof.
  unfold PDU.__init__, resolved. cbv zeta.
  assert (truthy name = true \/ truthy name = false) as [Hname|Hname]
    by (destruct (truthy name); auto).
  - destruct (truthy hostname); [|destruct (truthy hostIP)];
      match goal with |- context [match ?r with Some _ => _ | None => _ end] =>
        destruct r end;
      rewrite ?(init_body_named _ _ _ _ Hname); discriminate.
  - destruct (truthy hostname) eqn:Hh; [|destruct (truthy hostIP) eqn:Hi];
      match goal with |- context [match ?r with Some _ => _ | None => _ end] =>
        destruct r eqn:Hr end;
      rewrite ?(init_body_run _ _ _ _ Hname); try discriminate;
      cbn [self wire]; intros Heq; injection Heq as <- <-;
      cbn [PDU.hostname PDU.hostIP];
      (split; [exact Hname|]); (split; [|split; reflexivity]).
    + split; [apply truthy_Some; exact Hh|exact Hr].
    + split; [apply truthy_Some; exact Hi|exact Hr].
    + split; reflexivity.
Qed.

(** X1: every instance the constructor hands out was built without a
    rename, at an address obtained from the resolver (from [hostname] if
    given, else from [hostIP], else from the module default), by exactly the
    six identity GETs, and carries their six answers. *)
Theorem init_returns_identified
    (hostname hostIP name : option string) (log log' : list Request) (o : PDU.obj) :
  PDU.__init__ env hostname hostIP name log = (Ok o, log') ->
  truthy name = false
  /\ resolved env hostname hostIP o
  /\ log' = log ++ map (ident_request (PDU.hostIP o)) ident_oids
  /\ PDU.model o = Some (ident_answer env log (PDU.hostIP o) 0)
  /\ PDU.serial o = Some (ident_answer env log (PDU.hostIP o) 1)
  /\ PDU.hw_rev o = Some (ident_answer env log (PDU.hostIP o) 2)
  /\ PDU.fw_rev o = Some (ident_answer env log (PDU.hostIP o) 3)
  /\ PDU.date o = Some (ident_answer env log (PDU.hostIP o) 4)
  /\ PDU.name o = Some (ident_answer env log (PDU.hostIP o) 5).
Proof.
  intros H. destruct (init_inv _ _ _ _ _ _ H) as (Hname & Hres & Ho & Hlog).
  split; [exact Hname|]. split; [exact Hres|]. split; [exact Hlog|].
  rewrite Ho at 1 3 5 7 9 11. cbn. repeat split.
Qed.

(** [hostname] has priority over [hostIP]: when a non-empty host name is
    given, the [hostIP] argument plays no part in the construction. *)
Lemma init_hostname_has_priority
    (hostname hostIP hostIP' name : option string) (log : list Request) :
  truthy hostname = true ->
  PDU.__init__ env hostname hostIP name log =
    PDU.__init__ env hostname hostIP' name log.
Proof. intros H. unfold PDU.__init__. rewrite H. reflexivity. Qed.

(** X3: with a resolver that answers every query, constructing a PDU
    without a name (or with the empty name) always returns an instance, after
    exactly the six identity GETs. *)
Theorem init_without_name_returns
    (hostname hostIP name : option string) (log : list Request) :
  (forall h, gethostbyname env h <> None) ->
  (forall ip, gethostbyaddr env ip <> None) ->
  truthy name = false ->
  exists o, PDU.__init__ env hostname hostIP name log =
              (Ok o, log ++ map (ident_request (PDU.hostIP o)) ident_oids).
Proof.
  intros Hn Ha Hname. unfold PDU.__init__. cbv zeta.
  destruct (truthy hostname); [|destruct (truthy hostIP)];
    match goal with |- context [match ?r with Some _ => _ | None => _ end] =>
      destruct r eqn:Hr end;
    try (exfalso; first [eapply Hn; exact Hr | eapply Ha; exact Hr]);
    rewrite (init_body_run _ _ _ _ Hname); cbn [self wire];
    match goal with |- context [Ok ?i] => exists i end; reflexivity.
Qed.

(** X4: on every instance the constructor hands out, [__repr__] returns
    (it never misses an attribute) the text
    "<name> <model>, ser. <serial>, h/w rev. <hw>, f/w <fw>, made <date>"
    built from the six answers, an answer [None] being printed as "None". *)
Theorem repr_of_constructed
    (hostname hostIP name : option string) (log log' l : list Request) (o : PDU.obj) :
  PDU.__init__ env hostname hostIP name log = (Ok o, log') ->
  let answer i := format_s (ident_answer env log (PDU.hostIP o) i) in
  PDU.__repr__ (mkWorld o l) =
    (Ok (answer 5%nat +:+ " " +:+ answer 0%nat +:+ ", ser. " +:+ answer 1%nat
         +:+ ", h/w rev. " +:+ answer 2%nat +:+ ", f/w " +:+ answer 3%nat
         +:+ ", made " +:+ answer 4%nat),
     mkWorld o l).
Proof.
  intros H. destruct (init_inv _ _ _ _ _ _ H) as (_ & _ & Ho & _).
  cbv zeta. destruct o as [h ip m se hw fw d n].
  unfold identified in Ho. cbn [PDU.hostname PDU.hostIP] in *.
  injection Ho as -> -> -> -> -> ->. reflexivity.
Qed.

End Construction.

(** ** The aggregate status strings *)



Section Status.
Variable env : Env.


End Status.

(** ** The outlet directory at its edges *)

Section DirectoryEdges.
Variable env : Env.

(** X6: when the answer to the table size read cannot be converted by
    [int()], both directory methods raise that conversion's error,
    [TypeError] for an answer [None] (the value could not be fetched) and
    [ValueError] for a text that is not a number, having made that one GET
    only: no outlet is read or written. *)
Theorem directory_without_table_size
    (namelist : list string) (w : World PDU.obj) (e : Exn) :
  let ip := PDU.hostIP (self w) in
  let answer := get_reply env (wire w) (table_size_request ip) in
  let w1 := mkWorld (self w) (wire w ++ [table_size_request ip]) in
  int_ answer = Raise e ->
  PDU.get_outlet_names env w = (Raise e, w1)
  /\ PDU.set_outlet_names env namelist w = (Raise e, w1)
  /\ ((answer = PyNone /\ e = TypeError)
      \/ exists s, answer = PyStr s /\ e = ValueError s).
Proof.
  cbv zeta. intros He.
  rewrite get_outlet_names_run, set_outlet_names_run. cbv zeta. rewrite He.
  split; [reflexivity|]. split; [reflexivity|].
  destruct (get_reply _ _ _) as [|s|z]; cbn [int_] in He.
  - left. split; [reflexivity|]. congruence.
  - right. exists s. split; [reflexivity|].
    destruct (int_of_str s); congruence.
  - discriminate.
Qed.

(** X7: on a device that reports no outlets (a table size of zero or
    less), [get_outlet_names] returns the empty dict after the one GET of
    the table size; and when the size is zero, [set_outlet_names] of the
    empty list returns the empty dict without any SET. *)
Theorem directory_of_no_outlets (w : World PDU.obj) (n : Z) :
  let ip := PDU.hostIP (self w) in
  let w1 := mkWorld (self w) (wire w ++ [table_size_request ip]) in
  int_ (get_reply env (wire w) (table_size_request ip)) = Ok n ->
  n <= 0 ->
  PDU.get_outlet_names env w = (Ok ∅, w1)
  /\ (n = 0 -> PDU.set_outlet_names env [] w = (Ok ∅, w1)).
Proof.
  cbv zeta. intros Hn Hle.
  rewrite get_outlet_names_run, set_outlet_names_run. cbv zeta. rewrite Hn.
  unfold range. replace (Z.to_nat n) with 0%nat by lia.
  cbn [seq map tabulate]. rewrite app_nil_r.
  split; [reflexivity|]. intros ->. simpl. rewrite app_nil_r. reflexivity.
Qed.

End DirectoryEdges.

(** ** What the methods never do *)

Lemma init_wire {O A} (P : Request -> Prop) (body : M O A) (w : World O) :
  emits P body ->
  exists new : list Request,
    snd (match body w with
         | (Ok _, w') => (Ok (self w'), wire w')
         | (Raise e, w') => (Raise e, wire w')
         end) = wire w ++ new
    /\ Forall P new.
Proof.
  intros Hbody. destruct (Hbody w) as (new & E & F).
  exists new. destruct (body w) as [[a|e] w']; split; assumption.
Qed.

Section Keeps.
Context {O B : Type} (proj : O -> B) (b : B) (P : Request -> Prop).

Lemma keeps_silent {A} (m : M O A) :
  (forall w, snd (m w) = w) -> keeps proj b P m.
Proof.
  intros H w Hb. rewrite H. split; [exact Hb|].
  exists []. rewrite app_nil_r. split; [reflexivity|constructor].
Qed.

Lemma keeps_bind {A C} (m : M O A) (k : A -> M O C) :
  keeps proj b P m -> (forall a, keeps proj b P (k a)) -> keeps proj b P (bind m k).
Proof.
  intros Hm Hk w Hb. unfold bind.
  destruct (Hm w Hb) as (Hb1 & new1 & E1 & F1).
  destruct (m w) as [[a|e] w1]; cbn [snd] in *.
  - destruct (Hk a w1 Hb1) as (Hb2 & new2 & E2 & F2).
    split; [exact Hb2|]. exists (new1 ++ new2). rewrite E2, E1, app_assoc.
    split; [reflexivity|]. apply Forall_app. split; assumption.
  - split; [exact Hb1|]. exists new1. split; assumption.
Qed.

(** Reading an attribute of an object whose projection is known. *)
Lemma keeps_getattr {A C} (f : O -> A) (k : A -> M O C) :
  (forall o, proj o = b -> keeps proj b P (k (f o))) ->
  keeps proj b P (bind (getattr f) k).
Proof. intros Hk w Hb. unfold bind, getattr. apply (Hk (self w) Hb w Hb). Qed.

Lemma keeps_setattr (g : O -> O) :
  (forall o, proj (g o) = proj o) -> keeps proj b P (setattr g).
Proof.
  intros Hg w Hb. unfold setattr. cbn [snd self wire].
  split; [rewrite Hg; exact Hb|].
  exists []. rewrite app_nil_r. split; [reflexivity|constructor].
Qed.

Lemma keeps_for {A} (body : nat -> A -> M O A) (ns : list nat) :
  (forall n acc, keeps proj b P (body n acc)) ->
  forall acc, keeps proj b P (for_ ns body acc).
Proof.
  intros Hbody. induction ns as [|n ns IH]; intros acc; cbn [for_].
  - apply keeps_silent. reflexivity.
  - apply keeps_bind; [apply Hbody|exact IH].
Qed.

Lemma keeps_snmpget (env : Env) (v : Varbind) (ver : Z) (host comm : string) :
  P (mkRequest GET v ver host comm) ->
  keeps proj b P (snmpget (O:=O) env v ver host comm).
Proof.
  intros HP w Hb. split; [exact Hb|].
  eexists. split; [reflexivity|]. repeat constructor. exact HP.
Qed.

Lemma keeps_snmpset (env : Env) (v : Varbind) (ver : Z) (host comm : string) :
  P (mkRequest SET v ver host comm) ->
  keeps proj b P (snmpset (O:=O) env v ver host comm).
Proof.
  intros HP w Hb. split; [exact Hb|].
  eexists. split; [reflexivity|]. repeat constructor. exact HP.
Qed.

Lemma keeps_getitem {A} (d : gmap Z A) (k : Z) : keeps proj b P (getitem (O:=O) d k).
Proof. apply keeps_silent. intros w. unfold getitem. destruct (d !! k); reflexivity. Qed.

Lemma keeps_index {A} (l : list A) (n : nat) : keeps proj b P (index_ (O:=O) l n).
Proof. apply keeps_silent. intros w. unfold index_. destruct (l !! n); reflexivity. Qed.

Lemma keeps_split (v : value) : keeps proj b P (split_ (O:=O) v).
Proof. apply keeps_silent. intros w. destruct v; reflexivity. Qed.

End Keeps.

Ltac keeps_step :=
  first
    [ apply keeps_getattr; intros ? ?
    | apply keeps_bind; [|intros ?]
    | apply keeps_for; intros ? ?
    | apply keeps_getitem
    | apply keeps_index
    | apply keeps_split
    | apply keeps_setattr; reflexivity
    | apply keeps_silent; intros ?; reflexivity ].

Section Never.
Variable env : Env.

(** X8: monitoring never writes.  Whatever the agent answers, the read
    methods of both classes, and both constructors, add only GETs to the
    log. *)
Theorem reads_never_write :
  (forall v, emits is_get (PDU._get_var env v))
  /\ emits is_get (PDU._get_ident env)
  /\ emits is_get (PDU.get_outlet_states env)
  /\ emits is_get (PDU.get_pending env)
  /\ emits is_get (PDU.get_outlet_names env)
  /\ emits is_get (Outlet.get_name env)
  /\ emits is_get (Outlet.get_state env)
  /\ (forall hostname hostIP name log, exists new : list Request,
        snd (PDU.__init__ env hostname hostIP name log) = log ++ new
        /\ Forall is_get new)
  /\ (forall pdu number log, exists new : list Request,
        snd (Outlet.__init__ env pdu number log) = log ++ new
        /\ Forall is_get new).
Proof.
  assert (Hident : emits is_get (PDU._get_ident env))
    by (unfold PDU._get_ident, PDU._get_var; emits_auto).
  assert (Hname : emits is_get (Outlet.get_name env))
    by (unfold Outlet.get_name; emits_auto).
  assert (Hstate : emits is_get (Outlet.get_state env))
    by (unfold Outlet.get_state; emits_auto).
  repeat apply conj; try assumption.
  - intros v. unfold PDU._get_var. emits_auto.
  - unfold PDU.get_outlet_states, PDU._get_var. emits_auto.
  - unfold PDU.get_pending, PDU._get_var. emits_auto.
  - unfold PDU.get_outlet_names, PDU._get_var. emits_auto.
  - intros hostname hostIP name log. unfold PDU.__init__. cbv zeta.
    match goal with |- context [match ?r with Ok _ => _ | Raise _ => _ end] =>
      destruct r as [[h ip]|e] end.
    + apply (init_wire is_get _ (mkWorld _ log)).
      apply emits_bind; [|intros ?; exact Hident].
      destruct (truthy name); [|emits_auto].
      apply emits_bind; [apply emits_silent; reflexivity|intros ?; emits_auto].
    + exists []. rewrite app_nil_r. split; [reflexivity|constructor].
  - intros pdu number log. unfold Outlet.__init__.
    apply (init_wire is_get _ (mkWorld _ log)).
    apply emits_bind; [exact Hname|intros v].
    apply emits_bind; [destruct v; emits_auto|intros ?; exact Hstate].
Qed.

(** X9: apart from [_get_ident], no method of [PDU] changes the instance
    it runs on, and every request it makes goes to the instance's [hostIP]
    with protocol version 2; [_get_ident] changes neither [hostname] nor
    [hostIP] and addresses its requests the same way. *)
Theorem pdu_methods_keep_the_instance (o : PDU.obj) :
  let P := addressed (PDU.hostIP o) in
  (forall v, keeps (fun x => x) o P (PDU._get_var env v))
  /\ (forall name, keeps (fun x => x) o P (PDU.set_name env name))
  /\ keeps (fun x => x) o P (PDU.get_outlet_states env)
  /\ keeps (fun x => x) o P (PDU.get_pending env)
  /\ keeps (fun x => x) o P (PDU.get_outlet_names env)
  /\ (forall namelist, keeps (fun x => x) o P (PDU.set_outlet_names env namelist))
  /\ keeps (fun x => (PDU.hostname x, PDU.hostIP x)) (PDU.hostname o, PDU.hostIP o) P
       (PDU._get_ident env).
Proof.
  cbv zeta.
  assert (Hvar : forall v, keeps (fun x => x) o (addressed (PDU.hostIP o))
                             (PDU._get_var env v)).
  { intros v. unfold PDU._get_var. apply keeps_getattr. intros ? ->.
    apply keeps_snmpget. split; reflexivity. }
  repeat apply conj.
  - exact Hvar.
  - intros name. apply keeps_silent. reflexivity.
  - unfold PDU.get_outlet_states.
    apply keeps_bind; [apply Hvar|intros ?; apply keeps_split].
  - unfold PDU.get_pending.
    apply keeps_bind; [apply Hvar|intros ?; apply keeps_split].
  - unfold PDU.get_outlet_names. cbv zeta.
    apply keeps_bind; [apply Hvar|intros ?].
    apply keeps_bind; [apply keeps_silent; reflexivity|intros ?].
    apply keeps_for. intros ? ?. apply keeps_getattr. intros ? ->.
    apply keeps_bind; [apply keeps_snmpget; split; reflexivity|intros ?].
    apply keeps_silent. reflexivity.
  - intros namelist. unfold PDU.set_outlet_names. cbv zeta.
    apply keeps_bind; [apply Hvar|intros ?].
    apply keeps_bind; [apply keeps_silent; reflexivity|intros ?].
    destruct (negb _); [apply keeps_silent; reflexivity|].
    apply keeps_for. intros ? ?.
    apply keeps_bind; [apply keeps_index|intros ?].
    apply keeps_getattr. intros ? ->.
    apply keeps_bind; [apply keeps_snmpset; split; reflexivity|intros ?].
    apply keeps_silent. reflexivity.
  - assert (Hv : forall v, keeps (fun x => (PDU.hostname x, PDU.hostIP x))
                             (PDU.hostname o, PDU.hostIP o)
                             (addressed (PDU.hostIP o)) (PDU._get_var env v)).
    { intros v. unfold PDU._get_var. apply keeps_getattr. intros x Hx.
      injection Hx as _ Hip. apply keeps_snmpget. split; [exact Hip|reflexivity]. }
    unfold PDU._get_ident. cbv zeta.
    repeat (apply keeps_bind; [apply Hv|intros ?];
            first [apply keeps_bind; [apply keeps_setattr; reflexivity|intros ?]
                  |apply keeps_setattr; reflexivity]).
Qed.

(** X10: an outlet only ever talks about itself.  No method of [Outlet]
    changes the instance's [pdu] or [number], and every request it makes is
    about instance [number], goes to the [hostIP] of its PDU and uses
    protocol version 2. *)
Theorem outlet_talks_about_itself (p : PDU.obj) (num : string) :
  let proj := fun x => (Outlet.pdu x, Outlet.number x) in
  let P := fun rq => addressed (PDU.hostIP p) rq /\ iid (var rq) = num in
  keeps proj (p, num) P (Outlet.get_name env)
  /\ (forall name, keeps proj (p, num) P (Outlet.set_name env name))
  /\ keeps proj (p, num) P (Outlet.get_state env)
  /\ (forall on, keeps proj (p, num) P (Outlet.set_state env on)).
Proof.
  cbv zeta.
  set (proj := fun x => (Outlet.pdu x, Outlet.number x)).
  set (P := fun rq => addressed (PDU.hostIP p) rq /\ iid (var rq) = num).
  assert (Hname : keeps proj (p, num) P (Outlet.get_name env)).
  { unfold Outlet.get_name. cbv zeta.
    apply keeps_getattr. intros x Hx. injection Hx as _ Hn.
    apply keeps_getattr. intros y Hy. injection Hy as Hp _.
    apply keeps_bind; [|intros ?; repeat keeps_step].
    apply keeps_snmpget. rewrite Hp, Hn. repeat split. }
  assert (Hstate : keeps proj (p, num) P (Outlet.get_state env)).
  { unfold Outlet.get_state. cbv zeta.
    apply keeps_getattr. intros x Hx. injection Hx as _ Hn.
    apply keeps_getattr. intros y Hy. injection Hy as Hp _.
    apply keeps_bind; [|intros ?].
    - apply keeps_snmpget. rewrite Hp, Hn. repeat split.
    - apply keeps_bind; [apply keeps_silent; reflexivity|intros ?].
      repeat keeps_step. }
  repeat apply conj; try assumption.
  - intros name. unfold Outlet.set_name. cbv zeta.
    apply keeps_getattr. intros x Hx. injection Hx as _ Hn.
    apply keeps_getattr. intros y Hy. injection Hy as Hp _.
    apply keeps_bind; [|intros ?].
    + apply keeps_snmpset. rewrite Hp, Hn. repeat split.
    + apply keeps_bind; [exact Hname|intros ?]. apply keeps_silent. reflexivity.
  - intros on. unfold Outlet.set_state. cbv zeta.
    apply keeps_getattr. intros x Hx. injection Hx as _ Hn.
    apply keeps_getattr. intros y Hy. injection Hy as Hp _.
    apply keeps_bind; [|intros ?].
    + apply keeps_snmpset. rewrite Hp, Hn. repeat split.
    + apply keeps_bind; [exact Hstate|intros ?]. apply keeps_silent. reflexivity.
Qed.

End Never.

(** ** Outlets: names, states and construction *)

Section Outlets.
Variable env : Env.

Lemma outlet_get_name_run (w : World Outlet.obj) :
  let rq := mkRequest GET (mkVarbind "sPDUOutletCtlName" (Outlet.number (self w))
                             PyNone None)
                      2 (PDU.hostIP (Outlet.pdu (self w))) "public" in
  Outlet.get_name env w =
    (Ok (get_reply env (wire w) rq),
     mkWorld (Outlet.set_name_attr (get_reply env (wire w) rq) (self w))
             (wire w ++ [rq])).
Proof. destruct w as [o log]. reflexivity. Qed.

Lemma outlet_set_name_run (name : string) (w : World Outlet.obj) :
  let ip := PDU.hostIP (Outlet.pdu (self w)) in
  let num := Outlet.number (self w) in
  let sent := mkRequest SET (mkVarbind "sPDUOutletName" num (PyStr name) (Some "STRING"))
                        2 ip "private" in
  let asked := mkRequest GET (mkVarbind "sPDUOutletCtlName" num PyNone None)
                         2 ip "public" in
  Outlet.set_name env name w =
    (Ok (bool_ (set_reply env (wire w) sent)),
     mkWorld (Outlet.set_name_attr (get_reply env (wire w ++ [sent]) asked) (self w))
             (wire w ++ [sent; asked])).
Proof.
  destruct w as [o log]. cbv zeta.
  unfold Outlet.set_name, bind, getattr, snmpset. cbn [self wire].
  rewrite outlet_get_name_run. cbv zeta. cbn [self wire].
  unfold ret. rewrite <- app_assoc. reflexivity.
Qed.

(** X11: [Outlet.set_name] never raises.  It makes one SET of
    [sPDUOutletName] (type STRING, community 'private') and then one GET of
    [sPDUOutletCtlName] for the same outlet, returns the truth value of what
    the SET handed back, and leaves in the [name] attribute what the device
    answered to the GET, whether or not that is the name asked for. *)
Theorem outlet_set_name_rereads (name : string) (w : World Outlet.obj) :
  let ip := PDU.hostIP (Outlet.pdu (self w)) in
  let num := Outlet.number (self w) in
  let sent := mkRequest SET (mkVarbind "sPDUOutletName" num (PyStr name) (Some "STRING"))
                        2 ip "private" in
  let asked := mkRequest GET (mkVarbind "sPDUOutletCtlName" num PyNone None)
                         2 ip "public" in
  let confirmed := get_reply env (wire w ++ [sent]) asked in
  Outlet.set_name env name w =
    (Ok (bool_ (set_reply env (wire w) sent)),
     mkWorld (Outlet.set_name_attr confirmed (self w)) (wire w ++ [sent; asked])).
Proof.
  destruct w as [o log]. cbv zeta.
  unfold Outlet.set_name, bind, getattr, snmpset. cbn [self wire].
  rewrite outlet_get_name_run. cbv zeta. cbn [self wire].
  unfold ret. rewrite <- app_assoc. reflexivity.
Qed.

(** X12: an answer that [get_state] cannot decode leaves the outlet
    inconsistent or untouched.  A number outside the table is stored in the
    [state] attribute before the lookup raises, while [status] keeps its old
    text, so the two no longer agree; an answer that is no number at all
    ([int()] raises) leaves the instance exactly as it was. *)
Theorem get_state_failure_leaves (w : World Outlet.obj) :
  let rq := outlet_state_get (PDU.hostIP (Outlet.pdu (self w)))
                             (Outlet.number (self w)) in
  let answer := get_reply env (wire w) rq in
  let after := self (snd (Outlet.get_state env w)) in
  (forall code, int_ answer = Ok code -> ~ (1 <= code <= 4) ->
     Outlet.state_attr after = Some code
     /\ Outlet.status after = Outlet.status (self w)
     /\ ~ decoded after)
  /\ (forall e, int_ answer = Raise e ->
        fst (Outlet.get_state env w) = Raise e /\ after = self w).
Proof.
  cbv zeta. rewrite get_state_run. cbv zeta. split.
  - intros code Hans Hout. rewrite Hans, (state_lookup_off_table code Hout).
    cbn [snd self Outlet.set_state_attr Outlet.state_attr Outlet.status].
    split; [reflexivity|]. split; [reflexivity|].
    intros (c & t & Hc & _ & Hl). cbn [Outlet.state_attr] in Hc.
    injection Hc as <-. rewrite (state_lookup_off_table code Hout) in Hl.
    discriminate.
  - intros e Hans. rewrite Hans. split; reflexivity.
Qed.

(** X13: whenever [get_state] or [set_state] returns, the outlet's
    [state] and [status] attributes agree with the class table; for
    [get_state] they are the pair it returns. *)
Theorem returning_leaves_decoded (w : World Outlet.obj) :
  (forall code text, fst (Outlet.get_state env w) = Ok (code, text) ->
     let after := self (snd (Outlet.get_state env w)) in
     Outlet.state_attr after = Some code /\ Outlet.status after = Some text
     /\ decoded after)
  /\ (forall on b, fst (Outlet.set_state env on w) = Ok b ->
        decoded (self (snd (Outlet.set_state env on w)))).
Proof.
  assert (Hget : forall w' code text,
            fst (Outlet.get_state env w') = Ok (code, text) ->
            Outlet.state_attr (self (snd (Outlet.get_state env w'))) = Some code
            /\ Outlet.status (self (snd (Outlet.get_state env w'))) = Some text
            /\ decoded (self (snd (Outlet.get_state env w')))).
  { intros w' code text. rewrite get_state_run. cbv zeta.
    destruct (int_ _) as [c|e]; [|discriminate].
    destruct (Outlet.state !! c) as [t|] eqn:Hl; [|discriminate].
    cbn [fst snd self]. intros Heq. injection Heq as <- <-.
    split; [reflexivity|]. split; [reflexivity|].
    exists c, t. repeat split; assumption. }
  split; [apply Hget|].
  intros on b. destruct w as [o log].
  unfold Outlet.set_state, bind, getattr, snmpset. cbn [self wire].
  match goal with |- context [Outlet.get_state env ?w1] =>
    pose proof (Hget w1) as H1; destruct (Outlet.get_state env w1) as [[[c t]|e] w2]
  end; [|discriminate].
  intros _. cbn [snd]. unfold ret. cbn [snd]. apply (H1 c t). reflexivity.
Qed.

(** X14: when the state read back after the SET cannot be decoded,
    [set_state] raises the error of that read, although the SET has been
    sent: what the SET handed back is lost to the caller. *)
Theorem set_state_loses_the_report (on : bool) (w : World Outlet.obj) (e : Exn) :
  let ip := PDU.hostIP (Outlet.pdu (self w)) in
  let num := Outlet.number (self w) in
  let sent := outlet_state_set ip num (if on then 1 else 2) in
  let reread := get_reply env (wire w ++ [sent]) (outlet_state_get ip num) in
  int_ reread = Raise e
  \/ (exists code, int_ reread = Ok code /\ ~ (1 <= code <= 4) /\ e = KeyError code) ->
  fst (Outlet.set_state env on w) = Raise e
  /\ wire (snd (Outlet.set_state env on w)) = wire w ++ [sent; outlet_state_get ip num].
Proof.
  destruct w as [o log]. cbv zeta.
  unfold Outlet.set_state, bind, getattr, snmpset. cbn [self wire].
  fold (outlet_state_set (PDU.hostIP (Outlet.pdu o)) (Outlet.number o)
          (if on then 1 else 2)).
  rewrite get_state_run. cbv zeta. cbn [self wire].
  intros [He|(code & Hc & Hout & ->)].
  - rewrite He. cbn [fst snd wire]. rewrite <- app_assoc. split; reflexivity.
  - rewrite Hc, (state_lookup_off_table code Hout).
    cbn [fst snd wire]. rewrite <- app_assoc. split; reflexivity.
Qed.

(** What [Outlet.__init__] runs on the fresh instance. *)
Lemma outlet_init_run (p : PDU.obj) (number : Z) (log : list Request) :
  let num := str_ number in
  let ip := PDU.hostIP p in
  let asked := mkRequest GET (mkVarbind "sPDUOutletCtlName" num PyNone None)
                         2 ip "public" in
  let nm := get_reply env log asked in
  let code_answer := get_reply env (log ++ [asked]) (outlet_state_get ip num) in
  Outlet.__init__ env p number log =
    match nm with
    | PyStr _ =>
        match int_ code_answer with
        | Raise e => (Raise e, log ++ [asked; outlet_state_get ip num])
        | Ok code =>
            match Outlet.state !! code with
            | None => (Raise (KeyError code), log ++ [asked; outlet_state_get ip num])
            | Some text =>
                (Ok (Outlet.mkOutlet p num (Some nm) (Some code) (Some text)),
                 log ++ [asked; outlet_state_get ip num])
            end
        end
    | _ => (Raise TypeError, log ++ [asked])
    end.
Proof.
  cbv zeta. unfold Outlet.__init__. cbv zeta. unfold bind at 1 2.
  rewrite outlet_get_name_run. cbv zeta. cbn [self wire Outlet.number Outlet.pdu].
  destruct (get_reply env log _) as [|s|z] eqn:Hnm; try reflexivity.
  unfold ret at 1. rewrite get_state_run. cbv zeta.
  cbn [self wire Outlet.number Outlet.pdu Outlet.set_name_attr].
  destruct (int_ _) as [code|e]; [destruct (Outlet.state !! code)|];
    cbn [self wire]; rewrite <- app_assoc; reflexivity.
Qed.

(** X15: every outlet the constructor hands out belongs to the PDU it
    was given, is numbered [str(number)], has a text for a name, and has
    [state] and [status] attributes that agree with the class table; it was
    built by exactly two GETs, the name and then the state. *)
Theorem outlet_init_returns_decoded
    (p : PDU.obj) (number : Z) (log log' : list Request) (o : Outlet.obj) :
  Outlet.__init__ env p number log = (Ok o, log') ->
  Outlet.pdu o = p
  /\ Outlet.number o = str_ number
  /\ (exists s, Outlet.name o = Some (PyStr s))
  /\ decoded o
  /\ log' = log ++ [mkRequest GET (mkVarbind "sPDUOutletCtlName" (str_ number)
                                     PyNone None) 2 (PDU.hostIP p) "public";
                    outlet_state_get (PDU.hostIP p) (str_ number)].
Proof.
  rewrite outlet_init_run. cbv zeta.
  destruct (get_reply env log _) as [|s|z]; try discriminate.
  destruct (int_ _) as [code|e]; [|discriminate].
  destruct (Outlet.state !! code) as [text|] eqn:Hl; [|discriminate].
  intros Heq. injection Heq as <- <-. cbn.
  split; [reflexivity|]. split; [reflexivity|].
  split; [exists s; reflexivity|]. split; [|reflexivity].
  exists code, text. repeat split. exact Hl.
Qed.

(** X16: when the outlet's name cannot be fetched (the answer is [None]),
    the constructor raises [TypeError] after that one GET: the state is never
    read and no outlet instance is handed out. *)
Theorem outlet_init_without_name (p : PDU.obj) (number : Z) (log : list Request) :
  let asked := mkRequest GET (mkVarbind "sPDUOutletCtlName" (str_ number) PyNone None)
                         2 (PDU.hostIP p) "public" in
  get_reply env log asked = PyNone ->
  Outlet.__init__ env p number log = (Raise TypeError, log ++ [asked]).
Proof.
  cbv zeta. intros Hnm. rewrite outlet_init_run. cbv zeta. rewrite Hnm. reflexivity.
Qed.

End Outlets.

(** ** Instance numbers *)

Lemma to_int_proper (n : Z) :
  Z.to_int n <> Decimal.Pos Decimal.Nil /\ Z.to_int n <> Decimal.Neg Decimal.Nil.
Proof.
  destruct n as [|p|p]; cbn; split; try discriminate;
    intros H; injection H as H; exact (DecimalPos.Unsigned.to_uint_nonnil p H).
Qed.

(** [str] sends different integers to different texts. *)
Lemma str_inj (a b : Z) : str_ a = str_ b -> a = b.
Proof.
  unfold str_. intros H. apply DecimalZ.to_int_inj.
  destruct (to_int_proper a) as [Ha1 Ha2]. destruct (to_int_proper b) as [Hb1 Hb2].
  pose proof (NilZero.isi _ Ha1 Ha2) as Ea. pose proof (NilZero.isi _ Hb1 Hb2) as Eb.
  rewrite H in Ea. rewrite Ea in Eb. injection Eb as Eb. exact Eb.
Qed.

Lemma NoDup_map_inj {A B} (f : A -> B) (l : list A) :
  (forall x y, f x = f y -> x = y) -> NoDup l -> NoDup (map f l).
Proof.
  intros Hf Hl. induction Hl as [|x l Hx _ IH]; cbn [map]; constructor.
  - intros Hin. apply list_elem_of_In, in_map_iff in Hin.
    destruct Hin as (y & Hy & Hiny). apply Hf in Hy. subst y.
    apply Hx. apply list_elem_of_In. exact Hiny.
  - exact IH.
Qed.

Lemma string_of_uint_no_blank (d : Decimal.uint) :
  has_blank (NilEmpty.string_of_uint d) = false.
Proof. induction d; cbn; first [assumption|reflexivity]. Qed.

Lemma lstrip_no_blank (s : string) : has_blank s = false -> lstrip s = s.
Proof.
  destruct s as [|c s]; [reflexivity|]. cbn [has_blank lstrip].
  destruct (isspace c); [discriminate|reflexivity].
Qed.

Lemma rstrip_no_blank (s : string) : has_blank s = false -> rstrip s = s.
Proof.
  induction s as [|c s IH]; [reflexivity|]. cbn [has_blank rstrip].
  destruct (isspace c); [discriminate|]. cbn [orb]. intros H.
  rewrite (IH H). destruct s; reflexivity.
Qed.

Lemma digits_of_uint (d : Decimal.uint) :
  d <> Decimal.Nil ->
  int_of_str (NilEmpty.string_of_uint d) = Some (Z.of_uint d)
  /\ digits (NilEmpty.string_of_uint d) = Some (Z.of_uint d).
Proof.
  intros Hd.
  assert (Hdig : digits (NilEmpty.string_of_uint d) = Some (Z.of_uint d)).
  { unfold digits. pose proof (NilZero.usu d Hd) as H.
    destruct d; try contradiction; cbn [NilZero.string_of_uint] in H;
      rewrite H; reflexivity. }
  split; [|exact Hdig].
  unfold int_of_str.
  rewrite lstrip_no_blank, rstrip_no_blank by apply string_of_uint_no_blank.
  destruct d; try contradiction; exact Hdig.
Qed.

(** [int(str(n))] is [n]. *)
Lemma int_of_str_str (n : Z) : int_of_str (str_ n) = Some n.
Proof.
  unfold str_. destruct n as [|p|p]; [reflexivity| |].
  - cbn [Z.to_int NilZero.string_of_int].
    pose proof (DecimalPos.Unsigned.to_uint_nonnil p) as Hp.
    replace (NilZero.string_of_uint (Pos.to_uint p))
      with (NilEmpty.string_of_uint (Pos.to_uint p))
      by (destruct (Pos.to_uint p); [contradiction|reflexivity..]).
    rewrite (proj1 (digits_of_uint _ Hp)). f_equal.
    exact (DecimalZ.of_to (Z.pos p)).
  - cbn [Z.to_int NilZero.string_of_int].
    pose proof (DecimalPos.Unsigned.to_uint_nonnil p) as Hp.
    replace (NilZero.string_of_uint (Pos.to_uint p))
      with (NilEmpty.string_of_uint (Pos.to_uint p))
      by (destruct (Pos.to_uint p); [contradiction|reflexivity..]).
    unfold int_of_str.
    assert (Hb : has_blank (String "-" (NilEmpty.string_of_uint (Pos.to_uint p)))
                 = false) by (cbn [has_blank]; apply string_of_uint_no_blank).
    rewrite (lstrip_no_blank _ Hb), (rstrip_no_blank _ Hb).
    cbv iota beta. rewrite (proj2 (digits_of_uint _ Hp)).
    cbn [fmap option_fmap option_map]. f_equal.
    exact (DecimalZ.of_to (Z.neg p)).
Qed.

Section Instances.
Variable env : Env.

(** X2: the dicts of the directory are keyed by the numbers on the wire.
    For each outlet, the instance id carried by the request that
    [get_outlet_names] (or [set_outlet_names]) makes reads back, by [int()],
    as the key under which the answer to that very request is stored. *)
Theorem directory_keys_are_instance_ids
    (namelist : list string) (w : World PDU.obj) (n : Z) :
  let ip := PDU.hostIP (self w) in
  let log0 := wire w ++ [table_size_request ip] in
  let asked := outlet_name_get ip in
  let sent := outlet_name_set ip namelist in
  int_ (get_reply env (wire w) (table_size_request ip)) = Ok n ->
  (exists names : gmap Z value,
     fst (PDU.get_outlet_names env w) = Ok names
     /\ forall i, (i < Z.to_nat n)%nat ->
          exists k, int_ (PyStr (iid (var (asked i)))) = Ok k
            /\ names !! k =
                 Some (get_reply env (log0 ++ map asked (seq 0 i)) (asked i)))
  /\ (Z.of_nat (length namelist) = n ->
      exists result : gmap Z bool,
        fst (PDU.set_outlet_names env namelist w) = Ok result
        /\ forall i, (i < length namelist)%nat ->
             exists k, int_ (PyStr (iid (var (sent i)))) = Ok k
               /\ result !! k =
                    Some (bool_ (set_reply env (log0 ++ map sent (seq 0 i)) (sent i)))).
Proof.
  cbv zeta. intros Hn.
  rewrite get_outlet_names_run, set_outlet_names_run. cbv zeta. rewrite Hn.
  split.
  - eexists. split; [reflexivity|]. intros i Hi.
    exists (Z.of_nat i + 1). cbn [outlet_name_get var iid int_].
    rewrite int_of_str_str. split; [reflexivity|].
    unfold range. rewrite tabulate_lookup. case_decide; [|lia].
    replace (Z.to_nat (Z.of_nat i + 1 - 1)) with i by lia. reflexivity.
  - intros Hlen. rewrite (proj2 (Z.eqb_eq _ _) Hlen).
    eexists. split; [reflexivity|]. intros i Hi.
    exists (Z.of_nat i + 1). cbn [outlet_name_set var iid int_].
    rewrite int_of_str_str. split; [reflexivity|].
    rewrite tabulate_lookup. case_decide; [|lia].
    replace (Z.to_nat (Z.of_nat i + 1 - 1)) with i by lia. reflexivity.
Qed.

(** X17: in one call of [get_outlet_names] or [set_outlet_names] no
    request is made twice: the table size is read once, and the requests
    for different outlet indices carry different instance numbers. *)
Theorem directory_asks_each_outlet_once
    (namelist : list string) (w : World PDU.obj) (n : Z) :
  let ip := PDU.hostIP (self w) in
  int_ (get_reply env (wire w) (table_size_request ip)) = Ok n ->
  (exists new, wire (snd (PDU.get_outlet_names env w)) = wire w ++ new
     /\ length new = S (Z.to_nat n) /\ NoDup new)
  /\ (Z.of_nat (length namelist) = n ->
      exists new, wire (snd (PDU.set_outlet_names env namelist w)) = wire w ++ new
        /\ length new = S (length namelist) /\ NoDup new).
Proof.
  cbv zeta. intros Hn.
  rewrite get_outlet_names_run, set_outlet_names_run. cbv zeta. rewrite Hn.
  split.
  - eexists. cbn [snd wire]. rewrite <- app_assoc. split; [reflexivity|].
    cbn [app]. unfold range. split.
    + cbn [length]. rewrite length_map, length_seq. reflexivity.
    + constructor.
      * intros Hin. apply list_elem_of_In, in_map_iff in Hin.
        destruct Hin as (i & Hi & _). discriminate Hi.
      * apply NoDup_map_inj; [|apply NoDup_ListNoDup, List.seq_NoDup].
        intros i j Hij. injection Hij as Hij. apply str_inj in Hij. lia.
  - intros Hlen. rewrite (proj2 (Z.eqb_eq _ _) Hlen).
    eexists. cbn [snd wire]. rewrite <- app_assoc. split; [reflexivity|].
    cbn [app]. split.
    + cbn [length]. rewrite length_map, length_seq. reflexivity.
    + constructor.
      * intros Hin. apply list_elem_of_In, in_map_iff in Hin.
        destruct Hin as (i & Hi & _). discriminate Hi.
      * apply NoDup_map_inj; [|apply NoDup_ListNoDup, List.seq_NoDup].
        intros i j Hij. injection Hij as Hij _. apply str_inj in Hij. lia.
Qed.

(** X18: the directory and the outlet ask the device the same things, up
    to one field.  For the outlet numbered [i+1] of the same PDU,
    [Outlet.get_name] makes exactly the request [get_outlet_names] makes for
    that index; [Outlet.set_name] makes the request [set_outlet_names] makes
    for that index and name, except that it declares the type STRING, which
    the bulk request leaves out. *)
Theorem outlet_and_directory_requests
    (o : Outlet.obj) (log : list Request) (namelist : list string)
    (i : nat) (nm : string) :
  let ip := PDU.hostIP (Outlet.pdu o) in
  let bulk := outlet_name_set ip namelist i in
  Outlet.number o = str_ (Z.of_nat i + 1) ->
  namelist !! i = Some nm ->
  wire (snd (Outlet.get_name env (mkWorld o log))) = log ++ [outlet_name_get ip i]
  /\ wire (snd (Outlet.set_name env nm (mkWorld o log))) =
       log ++ [mkRequest SET (mkVarbind (tag (var bulk)) (iid (var bulk))
                                        (val (var bulk)) (Some "STRING"))
                         (Version bulk) (DestHost bulk) (Community bulk);
               outlet_name_get ip i]
  /\ type (var bulk) = None.
Proof.
  cbv zeta. intros Hnum Hnm.
  rewrite outlet_set_name_run, outlet_get_name_run. cbv zeta.
  cbn [snd wire self]. unfold outlet_name_get, outlet_name_set.
  rewrite Hnum, Hnm. repeat split.
Qed.

(** X19: [DTO_names] names 24 outlets, all different; [set_outlet_names]
    accepts it exactly from a PDU that reports 24 outlets, and then answers
    for each of the indices 1..24. *)
Theorem DTO_names_fit_24_outlets (w : World PDU.obj) (n : Z) :
  int_ (get_reply env (wire w) (table_size_request (PDU.hostIP (self w)))) = Ok n ->
  NoDup DTO_names
  /\ (n = 24 ->
      exists result : gmap Z bool,
        fst (PDU.set_outlet_names env DTO_names w) = Ok result
        /\ forall k, 1 <= k <= 24 -> is_Some (result !! k))
  /\ (n <> 24 ->
      fst (PDU.set_outlet_names env DTO_names w) =
        Raise (RuntimeError "Incorrect number of names.")).
Proof.
  intros Hn. split; [|split].
  - apply (bool_decide_unpack _). vm_compute. exact I.
  - intros ->. rewrite set_outlet_names_run. cbv zeta. rewrite Hn.
    change (Z.of_nat (length DTO_names) =? 24)%Z with true. cbv iota.
    eexists. split; [reflexivity|].
    intros k Hk. rewrite tabulate_lookup.
    change (length DTO_names) with 24%nat.
    case_decide; [eexists; reflexivity|lia].
  - intros Hne. rewrite set_outlet_names_run. cbv zeta. rewrite Hn.
    change (length DTO_names) with 24%nat.
    destruct (Z.eqb_spec (Z.of_nat 24) n) as [E|_]; [|reflexivity].
    exfalso. apply Hne. rewrite <- E. reflexivity.
Qed.

End Instances.

(** ** What the program may write *)

Ltac reads_step :=
  first
    [ apply emits_bind; [|intros ?]
    | apply emits_for; intros ? ?
    | apply emits_snmpget; intros ?; discriminate
    | apply emits_getitem
    | apply emits_index
    | apply emits_split
    | apply emits_lift
    | apply emits_silent; intros ?; reflexivity ].

Section Writes.
Variable env : Env.

(** X20: the only writes.  Whatever the agent answers and whatever the
    arguments, a SET made by any method or constructor of the two classes
    either stores a text in an outlet's [sPDUOutletName] or stores the code
    1 or 2 in an outlet's [sPDUOutletCtl]: the device name is never written
    and no other state code is ever requested. *)
Theorem writes_are_names_or_on_off :
  (forall v, emits allowed_write (PDU._get_var env v))
  /\ emits allowed_write (PDU._get_ident env)
  /\ (forall name, emits allowed_write (PDU.set_name env name))
  /\ emits allowed_write (PDU.get_outlet_states env)
  /\ emits allowed_write (PDU.get_pending env)
  /\ emits allowed_write (PDU.get_outlet_names env)
  /\ (forall namelist, emits allowed_write (PDU.set_outlet_names env namelist))
  /\ emits allowed_write (Outlet.get_name env)
  /\ (forall name, emits allowed_write (Outlet.set_name env name))
  /\ emits allowed_write (Outlet.get_state env)
  /\ (forall on, emits allowed_write (Outlet.set_state env on))
  /\ (forall hostname hostIP name log, exists new : list Request,
        snd (PDU.__init__ env hostname hostIP name log) = log ++ new
        /\ Forall allowed_write new)
  /\ (forall pdu number log, exists new : list Request,
        snd (Outlet.__init__ env pdu number log) = log ++ new
        /\ Forall allowed_write new).
Proof.
  assert (Hident : emits allowed_write (PDU._get_ident env))
    by (unfold PDU._get_ident, PDU._get_var; cbv zeta; repeat reads_step).
  assert (Hname : emits allowed_write (Outlet.get_name env))
    by (unfold Outlet.get_name; cbv zeta; repeat reads_step).
  assert (Hstate : emits allowed_write (Outlet.get_state env))
    by (unfold Outlet.get_state; cbv zeta; repeat reads_step).
  assert (Hrename : forall name, emits allowed_write (PDU.set_name env name))
    by (intros name; apply emits_silent; reflexivity).
  repeat apply conj; try assumption.
  - intros v. unfold PDU._get_var. repeat reads_step.
  - unfold PDU.get_outlet_states, PDU._get_var. cbv zeta. repeat reads_step.
  - unfold PDU.get_pending, PDU._get_var. cbv zeta. repeat reads_step.
  - unfold PDU.get_outlet_names, PDU._get_var. cbv zeta. repeat reads_step.
  - intros namelist. unfold PDU.set_outlet_names, PDU._get_var. cbv zeta.
    repeat reads_step. destruct (negb _); repeat reads_step.
    apply emits_snmpset. intros _. left. split; [reflexivity|eexists; reflexivity].
  - intros name. unfold Outlet.set_name. cbv zeta.
    do 2 (apply emits_bind; [apply emits_silent; reflexivity|intros ?]).
    apply emits_bind; [|intros ?; apply emits_bind;
                                  [exact Hname|intros ?; apply emits_silent; reflexivity]].
    apply emits_snmpset. intros _. left. split; [reflexivity|eexists; reflexivity].
  - intros on. unfold Outlet.set_state. cbv zeta.
    do 2 (apply emits_bind; [apply emits_silent; reflexivity|intros ?]).
    apply emits_bind; [|intros ?; apply emits_bind;
                                  [exact Hstate|intros ?; apply emits_silent; reflexivity]].
    apply emits_snmpset. intros _. right. split; [reflexivity|].
    destruct on; [left|right]; reflexivity.
  - intros hostname hostIP name log. unfold PDU.__init__. cbv zeta.
    match goal with |- context [match ?r with Ok _ => _ | Raise _ => _ end] =>
      destruct r as [[h ip]|e] end.
    + apply (init_wire allowed_write _ (mkWorld _ log)).
      apply emits_bind; [|intros ?; exact Hident].
      destruct (truthy name); [|apply emits_silent; reflexivity].
      apply emits_bind; [apply Hrename|intros ?; apply emits_silent; reflexivity].
    + exists []. rewrite app_nil_r. split; [reflexivity|constructor].
  - intros pdu number log. unfold Outlet.__init__.
    apply (init_wire allowed_write _ (mkWorld _ log)).
    apply emits_bind; [exact Hname|intros v].
    apply emits_bind; [destruct v; apply emits_silent; reflexivity
                      |intros ?; exact Hstate].
Qed.

End Writes.

(** ** Concrete runs for the further properties *)

Lemma init_returns_identified_witness :
  truthy None = false
  /\ PDU.hostIP the_pdu = "192.168.1.50"
  /\ PDU.model the_pdu = Some (PyStr "AP7900")
  /\ PDU.name the_pdu = Some (PyStr "dto-pdu").
Proof.
  destruct (init_returns_identified (rack sound None) (Some "pdu") None None []
              (map (ident_request "192.168.1.50") ident_oids) the_pdu eq_refl)
    as (H1 & _ & _ & H4 & _ & _ & _ & _ & H9).
  split; [exact H1|]. split; [reflexivity|]. split; [exact H4|exact H9].
Defined.

Lemma init_without_name_returns_witness :
  exists o, PDU.__init__ (plain "3") None (Some "10.0.0.9") (Some "") [] =
              (Ok o, [] ++ map (ident_request (PDU.hostIP o)) ident_oids).
Proof.
  apply (init_without_name_returns (plain "3") None (Some "10.0.0.9") (Some "") []).
  - intros h. discriminate.
  - intros ip. discriminate.
  - reflexivity.
Defined.

Lemma repr_of_constructed_witness :
  PDU.__repr__ (mkWorld the_pdu []) =
    (Ok "dto-pdu AP7900, ser. ZA1234, h/w rev. A, f/w v3.9.2, made 03/15/2006",
     mkWorld the_pdu []).
Proof.
  exact (repr_of_constructed (rack sound None) (Some "pdu") None None []
           (map (ident_request "192.168.1.50") ident_oids) [] the_pdu eq_refl).
Defined.


Lemma directory_without_table_size_witness :
  PDU.get_outlet_names (rack (fails_on "sPDUOutletConfigTableSize" "0") None)
    (mkWorld the_pdu []) =
    (Raise TypeError, mkWorld the_pdu [table_size_request "192.168.1.50"])
  /\ PDU.set_outlet_names (rack (fails_on "sPDUOutletConfigTableSize" "0") None)
       ["Rack Fan"; "TCT"; "gpu2 a"] (mkWorld the_pdu []) =
       (Raise TypeError, mkWorld the_pdu [table_size_request "192.168.1.50"]).
Proof.
  destruct (directory_without_table_size
              (rack (fails_on "sPDUOutletConfigTableSize" "0") None)
              ["Rack Fan"; "TCT"; "gpu2 a"] (mkWorld the_pdu []) TypeError eq_refl)
    as (Hg & Hs & _).
  split; [exact Hg|exact Hs].
Defined.

Lemma directory_of_no_outlets_witness :
  PDU.get_outlet_names (plain "0") (mkWorld the_pdu []) =
    (Ok ∅, mkWorld the_pdu [table_size_request "192.168.1.50"])
  /\ PDU.set_outlet_names (plain "0") [] (mkWorld the_pdu []) =
       (Ok ∅, mkWorld the_pdu [table_size_request "192.168.1.50"]).
Proof.
  destruct (directory_of_no_outlets (plain "0") (mkWorld the_pdu []) 0 eq_refl
              (Z.le_refl 0)) as (Hg & Hs).
  split; [exact Hg|exact (Hs eq_refl)].
Defined.

Lemma get_state_failure_leaves_witness :
  let after := self (snd (Outlet.get_state (rack sound (Some (PyStr "7")))
                            (mkWorld outlet2 []))) in
  Outlet.state_attr after = Some 7 /\ Outlet.status after = Some "off"
  /\ ~ decoded after.
Proof.
  destruct (get_state_failure_leaves (rack sound (Some (PyStr "7")))
              (mkWorld outlet2 [])) as (H & _).
  apply (H 7 eq_refl). lia.
Defined.

Lemma returning_leaves_decoded_witness :
  decoded (self (snd (Outlet.get_state (rack sound None) (mkWorld outlet2 []))))
  /\ decoded (self (snd (Outlet.set_state (rack sound None) true
                           (mkWorld outlet2 [])))).
Proof.
  destruct (returning_leaves_decoded (rack sound None) (mkWorld outlet2 []))
    as (Hg & Hs).
  split.
  - apply (Hg 2 "off" eq_refl).
  - apply (Hs true true eq_refl).
Defined.

Lemma set_state_loses_the_report_witness :
  fst (Outlet.set_state (rack sound (Some PyNone)) true (mkWorld outlet2 [])) =
    Raise TypeError
  /\ wire (snd (Outlet.set_state (rack sound (Some PyNone)) true
                  (mkWorld outlet2 []))) =
       [outlet_state_set "192.168.1.50" "2" 1; outlet_state_get "192.168.1.50" "2"].
Proof.
  apply (set_state_loses_the_report (rack sound (Some PyNone)) true
           (mkWorld outlet2 []) TypeError).
  left. reflexivity.
Defined.

Lemma outlet_init_returns_decoded_witness :
  Outlet.pdu outlet2 = the_pdu /\ Outlet.number outlet2 = "2" /\ decoded outlet2.
Proof.
  destruct (outlet_init_returns_decoded (rack sound None) the_pdu 2 []
              [outlet_name_get "192.168.1.50" 1; outlet_state_get "192.168.1.50" "2"]
              outlet2 eq_refl) as (Hp & Hn & _ & Hd & _).
  split; [exact Hp|]. split; [exact Hn|exact Hd].
Defined.

Lemma outlet_init_without_name_witness :
  Outlet.__init__ (rack (fails_on "sPDUOutletCtlName" "2") None) the_pdu 2 [] =
    (Raise TypeError, [outlet_name_get "192.168.1.50" 1]).
Proof.
  apply (outlet_init_without_name (rack (fails_on "sPDUOutletCtlName" "2") None)
           the_pdu 2 []).
  reflexivity.
Defined.

Lemma directory_asks_each_outlet_once_witness :
  (exists new, wire (snd (PDU.get_outlet_names (rack sound None) (mkWorld the_pdu [])))
               = [] ++ new /\ length new = 4%nat /\ NoDup new)
  /\ (exists new, wire (snd (PDU.set_outlet_names (rack sound None)
                               ["Rack Fan"; "TCT"; "gpu2 a"] (mkWorld the_pdu [])))
                  = [] ++ new /\ length new = 4%nat /\ NoDup new).
Proof.
  destruct (directory_asks_each_outlet_once (rack sound None)
              ["Rack Fan"; "TCT"; "gpu2 a"] (mkWorld the_pdu []) 3 eq_refl)
    as (Hg & Hs).
  split; [exact Hg|exact (Hs eq_refl)].
Defined.

Lemma outlet_and_directory_requests_witness :
  wire (snd (Outlet.get_name (rack sound None) (mkWorld outlet2 []))) =
    [outlet_name_get "192.168.1.50" 1]
  /\ type (var (outlet_name_set "192.168.1.50" ["Rack Fan"; "TCT"; "gpu2 a"] 1)) = None.
Proof.
  destruct (outlet_and_directory_requests (rack sound None) outlet2 []
              ["Rack Fan"; "TCT"; "gpu2 a"] 1 "TCT" eq_refl eq_refl)
    as (Hg & _ & Ht).
  split; [exact Hg|exact Ht].
Defined.

Lemma DTO_names_fit_24_outlets_witness :
  (exists result : gmap Z bool,
     fst (PDU.set_outlet_names (plain "24") DTO_names (mkWorld the_pdu [])) = Ok result
     /\ forall k, 1 <= k <= 24 -> is_Some (result !! k))
  /\ fst (PDU.set_outlet_names (plain "3") DTO_names (mkWorld the_pdu [])) =
       Raise (RuntimeError "Incorrect number of names.").
Proof.
  split.
  - destruct (DTO_names_fit_24_outlets (plain "24") (mkWorld the_pdu []) 24 eq_refl)
      as (_ & H & _).
    exact (H eq_refl).
  - destruct (DTO_names_fit_24_outlets (plain "3") (mkWorld the_pdu []) 3 eq_refl)
      as (_ & _ & H).
    apply H. discriminate.
Defined.

Lemma directory_keys_are_instance_ids_witness :
  exists names : gmap Z value,
    fst (PDU.get_outlet_names (rack sound None) (mkWorld the_pdu [])) = Ok names
    /\ exists k, int_ (PyStr (iid (var (outlet_name_get "192.168.1.50" 2)))) = Ok k
         /\ names !! k = Some (PyStr "Outlet 3").
Proof.
  destruct (directory_keys_are_instance_ids (rack sound None) [] (mkWorld the_pdu [])
              3 eq_refl) as ((names & Hrun & Hkey) & _).
  exists names. split; [exact Hrun|].
  exact (Hkey 2%nat (Nat.lt_succ_diag_r 2)).
Defined.
